(** * noisyterminal: the noise cache, the frame renderer and the mouse decoder

A shallow embedding of [test4.py], [test4_optimized.py] and
[test4_optimized_v2.py], and the properties their specification states
about them.

Numbers.  A Python [int] is a [Z].  A Python [float] is modelled by the
rational it denotes ([Q]): [+], [-], [*] and [/] are exact, [/] by zero
raises [ZeroDivisionError] as in Python, and [int(f)] truncates toward
zero.  Rounding to binary64 is not part of this model; where a property
asserts exact equality of computed floats the same source lines are also
evaluated on the kernel's binary64 numbers (module [Binary64]).

Effects.  Exceptions are explicit: an expression evaluates to a [Result],
a statement maps the global variables to an [Outcome] that keeps the
variables as they were when an exception was raised.  A [dict] is an
association list in insertion order, as Python iterates it. *)

From Stdlib Require Import ZArith QArith Qround List Bool Lia.
From Stdlib Require Import Ascii String DecimalString.
From Stdlib Require Floats Uint63.
Import ListNotations.

Local Open Scope Z_scope.

(* ================================================================== *)
(** * Python values, exceptions and builtins                           *)
(* ================================================================== *)

Module Py.

(** The exceptions the modelled code can raise. *)
Inductive Exn : Type :=
  | ValueError
  | IndexError
  | KeyError
  | ZeroDivisionError.

Definition Exn_eqb (a b : Exn) : bool :=
  match a, b with
  | ValueError, ValueError => true
  | IndexError, IndexError => true
  | KeyError, KeyError => true
  | ZeroDivisionError, ZeroDivisionError => true
  | _, _ => false
  end.

(** The value of an expression: a value, or an exception. *)
Inductive Result (A : Type) : Type :=
  | Ok (a : A)
  | Raise (e : Exn).
Arguments Ok {A} a.
Arguments Raise {A} e.

Definition bind {A B : Type} (r : Result A) (k : A -> Result B) : Result B :=
  match r with
  | Ok a => k a
  | Raise e => Raise e
  end.

(** What a statement leaves behind: the variables, and how it ended.
    [Raised e s] keeps the variables [s] as the statement had left them when
    [e] was raised; [Broke s] is a [break] out of the main loop. *)
Inductive Outcome (S : Type) : Type :=
  | Done (s : S)
  | Broke (s : S)
  | Raised (e : Exn) (s : S).
Arguments Done {S} s.
Arguments Broke {S} s.
Arguments Raised {S} e s.

(** The variables a statement leaves, however it ended. *)
Definition state_of {S : Type} (o : Outcome S) : S :=
  match o with
  | Done s => s
  | Broke s => s
  | Raised _ s => s
  end.

(** [first ; second] *)
Definition seq {S : Type} (o : Outcome S) (k : S -> Outcome S) : Outcome S :=
  match o with
  | Done s => k s
  | other => other
  end.

(** [x = <expression> ; rest], the expression evaluated in variables [s]. *)
Definition eval {S A : Type} (s : S) (r : Result A) (k : A -> Outcome S)
  : Outcome S :=
  match r with
  | Ok a => k a
  | Raise e => Raised e s
  end.

(** [try: body  except (e1, e2, ...): handler] *)
Definition try_except {S : Type} (body : Outcome S) (caught : list Exn)
  (handler : S -> Outcome S) : Outcome S :=
  match body with
  | Raised e s => if existsb (Exn_eqb e) caught then handler s else Raised e s
  | other => other
  end.

(** ** Strings *)

Definition esc : ascii := ascii_of_nat 27.

Definition nl : string := String (ascii_of_nat 10) EmptyString.

(** [s.replace(c, "")] for a one-character [c]. *)
Fixpoint remove_char (c : ascii) (s : string) : string :=
  match s with
  | EmptyString => EmptyString
  | String a s' =>
      if Ascii.eqb a c then remove_char c s' else String a (remove_char c s')
  end.

(** [s.split(sep)] for a one-character separator: never the empty list. *)
Fixpoint split (sep : ascii) (s : string) : list string :=
  match s with
  | EmptyString => [EmptyString]
  | String a s' =>
      if Ascii.eqb a sep then EmptyString :: split sep s'
      else match split sep s' with
           | [] => [String a EmptyString]
           | w :: ws => String a w :: ws
           end
  end.

(** [c in s] for a one-character [c]. *)
Fixpoint contains_char (c : ascii) (s : string) : bool :=
  match s with
  | EmptyString => false
  | String a s' => Ascii.eqb a c || contains_char c s'
  end.

(** [s.replace(old, "")]: the occurrences of [old] are removed left to
    right, without overlap. *)
Fixpoint remove_sub_fuel (fuel : nat) (old s : string) : string :=
  match fuel with
  | O => s
  | S fuel' =>
      match s with
      | EmptyString => EmptyString
      | String a s' =>
          if String.prefix old s
          then remove_sub_fuel fuel'
                 old (String.substring (String.length old)
                        (String.length s - String.length old) s)
          else String a (remove_sub_fuel fuel' old s')
      end
  end.

Definition remove_sub (old s : string) : string :=
  remove_sub_fuel (S (String.length s)) old s.

(** [l[i]] for [i >= 0]. *)
Definition index {A : Type} (l : list A) (i : nat) : Result A :=
  match nth_error l i with
  | Some a => Ok a
  | None => Raise IndexError
  end.

(** [range(n)] *)
Definition range (n : Z) : list Z := map Z.of_nat (List.seq 0 (Z.to_nat n)).

(** [l[:n]] *)
Definition slice_to {A : Type} (n : Z) (l : list A) : list A :=
  if 0 <=? n then firstn (Z.to_nat n) l
  else firstn (List.length l - Z.to_nat (- n)) l.

(** ** [int(s)] on a string *)

Definition is_space (c : ascii) : bool :=
  let n := nat_of_ascii c in
  ((9 <=? n) && (n <=? 13) || (28 <=? n) && (n <=? 32))%nat.

Definition is_digit (c : ascii) : bool :=
  let n := nat_of_ascii c in ((48 <=? n) && (n <=? 57))%nat.

Definition digit_value (c : ascii) : Z := Z.of_nat (nat_of_ascii c) - 48.

Fixpoint lstrip (s : string) : string :=
  match s with
  | String a s' => if is_space a then lstrip s' else s
  | EmptyString => EmptyString
  end.

Fixpoint rstrip (s : string) : string :=
  match s with
  | EmptyString => EmptyString
  | String a s' =>
      match rstrip s' with
      | EmptyString => if is_space a then EmptyString else String a EmptyString
      | t => String a t
      end
  end.

(** Decimal digits, single underscores allowed between digits. *)
Fixpoint digits (s : string) (acc : Z) (after_digit : bool) : option Z :=
  match s with
  | EmptyString => if after_digit then Some acc else None
  | String c s' =>
      if is_digit c then digits s' (10 * acc + digit_value c) true
      else if Ascii.eqb c "_"%char
           then if after_digit then digits s' acc false else None
           else None
  end.

(** [int(s)]: surrounding white space, an optional sign, decimal digits;
    [ValueError] otherwise. *)
Definition int (s : string) : Result Z :=
  let t := rstrip (lstrip s) in
  let signed :=
    match t with
    | String "-"%char t' => (-1, t')
    | String "+"%char t' => (1, t')
    | _ => (1, t)
    end in
  match digits (snd signed) 0 false with
  | Some n => Ok (fst signed * n)
  | None => Raise ValueError
  end.

(** [str(n)], [format] of an [int] with [{}] or [%d]. *)
Definition str (n : Z) : string := NilZero.string_of_int (Z.to_int n).

(** [''.join(parts)] *)
Definition join (parts : list string) : string :=
  fold_right String.append EmptyString parts.

(** ** Numbers *)

(** [int(f)] on a float: truncation toward zero. *)
Definition trunc (q : Q) : Z := Z.quot (Qnum q) (Zpos (Qden q)).

(** [a / b], true division. *)
Definition div (a b : Q) : Result Q :=
  if Qeq_bool b 0 then Raise ZeroDivisionError else Ok (a / b)%Q.

Definition lt (a b : Q) : bool := negb (Qle_bool b a).
Definition gt (a b : Q) : bool := lt b a.

(** [min(a, b)] and [max(a, b)]: the first argument unless the second is
    strictly smaller (larger). *)
Definition min (a b : Q) : Q := if lt b a then b else a.
Definition max (a b : Q) : Q := if gt b a then b else a.

(** [round(x, ndigits)]: the closest multiple of [10**-ndigits], ties to
    the even multiple. *)
Definition round_half_even (t : Q) : Z :=
  let f := Qfloor t in
  let d := (t - inject_Z f)%Q in
  match Qcompare d (1 # 2) with
  | Lt => f
  | Gt => f + 1
  | Eq => if Z.even f then f else f + 1
  end.

Definition round (x : Q) (ndigits : nat) : Q :=
  let s := 10 ^ Z.of_nat ndigits in
  (inject_Z (round_half_even (x * inject_Z s)) / inject_Z s)%Q.

End Py.

(* ================================================================== *)
(** * [dict]: an association list in insertion order                   *)
(* ================================================================== *)

Module Dict.

Section Dict.
Context {K V : Type}.
(** Python's [==] on keys. *)
Variable eqb : K -> K -> bool.

(** [d.get(k)] *)
Fixpoint get (d : list (K * V)) (k : K) : option V :=
  match d with
  | [] => None
  | (k', v) :: d' => if eqb k k' then Some v else get d' k
  end.

(** [k in d] *)
Definition contains (d : list (K * V)) (k : K) : bool :=
  match get d k with
  | Some _ => true
  | None => false
  end.

(** [d[k]] *)
Definition getitem (d : list (K * V)) (k : K) : Py.Result V :=
  match get d k with
  | Some v => Py.Ok v
  | None => Py.Raise Py.KeyError
  end.

(** [d[k] = v]: a present key keeps its place, a new key goes last. *)
Fixpoint set (d : list (K * V)) (k : K) (v : V) : list (K * V) :=
  match d with
  | [] => [(k, v)]
  | (k', v') :: d' =>
      if eqb k k' then (k', v) :: d' else (k', v') :: set d' k v
  end.

(** [del d[k]] *)
Fixpoint del (d : list (K * V)) (k : K) : Py.Result (list (K * V)) :=
  match d with
  | [] => Py.Raise Py.KeyError
  | (k', v') :: d' =>
      if eqb k k' then Py.Ok d'
      else Py.bind (del d' k) (fun d'' => Py.Ok ((k', v') :: d''))
  end.

(** [list(d.keys())] *)
Definition keys (d : list (K * V)) : list K := map fst d.

(** [len(d)] *)
Definition len (d : list (K * V)) : Z := Z.of_nat (List.length d).

(** [for k in ks: del d[k]] *)
Fixpoint del_all (d : list (K * V)) (ks : list K)
  : Py.Result (list (K * V)) :=
  match ks with
  | [] => Py.Ok d
  | k :: ks' => Py.bind (del d k) (fun d' => del_all d' ks')
  end.

(** Every entry of [d] is an entry of [d'], with the same value. *)
Definition included (d d' : list (K * V)) : Prop :=
  forall k v, get d k = Some v -> get d' k = Some v.

(** No two entries have [==] keys: what a [dict] guarantees. *)
Fixpoint distinct_keys (d : list (K * V)) : Prop :=
  match d with
  | [] => True
  | (k, _) :: d' => contains d' k = false /\ distinct_keys d'
  end.

End Dict.

End Dict.

(* ================================================================== *)
(** * What the three programs share                                   *)
(* ================================================================== *)

(** A position in noise space, and a cache key: a tuple of three floats,
    compared with [==] component by component. *)
Definition Coordinate3 : Type := Q * Q * Q.

Definition Key : Type := Q * Q * Q.

Definition Key_eqb (a b : Key) : bool :=
  let '(a1, a2, a3) := a in
  let '(b1, b2, b3) := b in
  Qeq_bool a1 b1 && Qeq_bool a2 b2 && Qeq_bool a3 b3.

(** The records of the mouse protocol.  The program has no such values: it
    acts on each segment at once.  [events] below is a ghost variable that
    logs, per segment, the record whose action the program has completed;
    button code 64 is the wheel-up code and 65 the wheel-down code of the
    SGR protocol. *)
Inductive MouseRawEvent : Type :=
  | Move (col row : Z)
  | WheelUp
  | WheelDown
  | Unrecognized (rawFields : list string).

(** What one iteration of the main loop reads from the terminal. *)
Record FrameInput : Type := {
  getch : Z;                (* screen.getch(), -1 when no key *)
  getmaxyx : Z * Z;         (* screen.getmaxyx(): (rows, columns) *)
  stdin : string            (* what stdin holds when it is polled *)
}.

(** The module-level variables.  [renderer] is the renderer object of the
    optimized programs ([unit] in test4.py), [last_size_check] exists in
    test4_optimized_v2.py only, [fh] holds the lines written to debug.txt.
    Of what goes to stdout, [rows_written] keeps the row strings of the
    latest frame, top row first; the header line and the cursor moves
    between the rows are left out. *)
Record Globals (R : Type) : Type := {
  maxval : Z;
  mx : Q;
  b : Q;
  width : Z;
  height : Z;
  z : Z;
  minfound : Q;
  maxfound : Q;
  mousex : Z;
  mousey : Z;
  xoffset : Q;
  yoffset : Q;
  zoffset : Q;
  xvelocity : Q;
  yvelocity : Q;
  zvelocity : Q;
  framecount : Z;
  last_size_check : Z;
  renderer : R;
  fh : list string;
  rows_written : list string;
  events : list MouseRawEvent        (* ghost *)
}.
Arguments maxval {R} g.
Arguments mx {R} g.
Arguments b {R} g.
Arguments width {R} g.
Arguments height {R} g.
Arguments z {R} g.
Arguments minfound {R} g.
Arguments maxfound {R} g.
Arguments mousex {R} g.
Arguments mousey {R} g.
Arguments xoffset {R} g.
Arguments yoffset {R} g.
Arguments zoffset {R} g.
Arguments xvelocity {R} g.
Arguments yvelocity {R} g.
Arguments zvelocity {R} g.
Arguments framecount {R} g.
Arguments last_size_check {R} g.
Arguments renderer {R} g.
Arguments fh {R} g.
Arguments rows_written {R} g.
Arguments events {R} g.

Section GlobalsUpdate.

Context {R : Type}.
Implicit Type g : Globals R.

Definition set_mx_b g (m c : Q) : Globals R :=
  Build_Globals R (maxval g) m c (width g) (height g) (z g) (minfound g)
    (maxfound g) (mousex g) (mousey g) (xoffset g) (yoffset g) (zoffset g)
    (xvelocity g) (yvelocity g) (zvelocity g) (framecount g)
    (last_size_check g) (renderer g) (fh g) (rows_written g) (events g).

Definition set_size g (w h : Z) : Globals R :=
  Build_Globals R (maxval g) (mx g) (b g) w h (z g) (minfound g)
    (maxfound g) (mousex g) (mousey g) (xoffset g) (yoffset g) (zoffset g)
    (xvelocity g) (yvelocity g) (zvelocity g) (framecount g)
    (last_size_check g) (renderer g) (fh g) (rows_written g) (events g).

Definition set_found g (lo hi : Q) : Globals R :=
  Build_Globals R (maxval g) (mx g) (b g) (width g) (height g) (z g) lo hi
    (mousex g) (mousey g) (xoffset g) (yoffset g) (zoffset g)
    (xvelocity g) (yvelocity g) (zvelocity g) (framecount g)
    (last_size_check g) (renderer g) (fh g) (rows_written g) (events g).

Definition set_mousex g (v : Z) : Globals R :=
  Build_Globals R (maxval g) (mx g) (b g) (width g) (height g) (z g)
    (minfound g) (maxfound g) v (mousey g) (xoffset g) (yoffset g)
    (zoffset g) (xvelocity g) (yvelocity g) (zvelocity g) (framecount g)
    (last_size_check g) (renderer g) (fh g) (rows_written g) (events g).

Definition set_mousey g (v : Z) : Globals R :=
  Build_Globals R (maxval g) (mx g) (b g) (width g) (height g) (z g)
    (minfound g) (maxfound g) (mousex g) v (xoffset g) (yoffset g)
    (zoffset g) (xvelocity g) (yvelocity g) (zvelocity g) (framecount g)
    (last_size_check g) (renderer g) (fh g) (rows_written g) (events g).

Definition set_offsets g (x y zo : Q) : Globals R :=
  Build_Globals R (maxval g) (mx g) (b g) (width g) (height g) (z g)
    (minfound g) (maxfound g) (mousex g) (mousey g) x y zo
    (xvelocity g) (yvelocity g) (zvelocity g) (framecount g)
    (last_size_check g) (renderer g) (fh g) (rows_written g) (events g).

Definition set_xvelocity g (v : Q) : Globals R :=
  Build_Globals R (maxval g) (mx g) (b g) (width g) (height g) (z g)
    (minfound g) (maxfound g) (mousex g) (mousey g) (xoffset g) (yoffset g)
    (zoffset g) v (yvelocity g) (zvelocity g) (framecount g)
    (last_size_check g) (renderer g) (fh g) (rows_written g) (events g).

Definition set_yvelocity g (v : Q) : Globals R :=
  Build_Globals R (maxval g) (mx g) (b g) (width g) (height g) (z g)
    (minfound g) (maxfound g) (mousex g) (mousey g) (xoffset g) (yoffset g)
    (zoffset g) (xvelocity g) v (zvelocity g) (framecount g)
    (last_size_check g) (renderer g) (fh g) (rows_written g) (events g).

Definition set_zvelocity g (v : Q) : Globals R :=
  Build_Globals R (maxval g) (mx g) (b g) (width g) (height g) (z g)
    (minfound g) (maxfound g) (mousex g) (mousey g) (xoffset g) (yoffset g)
    (zoffset g) (xvelocity g) (yvelocity g) v (framecount g)
    (last_size_check g) (renderer g) (fh g) (rows_written g) (events g).

Definition set_framecount g (v : Z) : Globals R :=
  Build_Globals R (maxval g) (mx g) (b g) (width g) (height g) (z g)
    (minfound g) (maxfound g) (mousex g) (mousey g) (xoffset g) (yoffset g)
    (zoffset g) (xvelocity g) (yvelocity g) (zvelocity g) v
    (last_size_check g) (renderer g) (fh g) (rows_written g) (events g).

Definition set_last_size_check g (v : Z) : Globals R :=
  Build_Globals R (maxval g) (mx g) (b g) (width g) (height g) (z g)
    (minfound g) (maxfound g) (mousex g) (mousey g) (xoffset g) (yoffset g)
    (zoffset g) (xvelocity g) (yvelocity g) (zvelocity g) (framecount g)
    v (renderer g) (fh g) (rows_written g) (events g).

Definition set_renderer g (r : R) : Globals R :=
  Build_Globals R (maxval g) (mx g) (b g) (width g) (height g) (z g)
    (minfound g) (maxfound g) (mousex g) (mousey g) (xoffset g) (yoffset g)
    (zoffset g) (xvelocity g) (yvelocity g) (zvelocity g) (framecount g)
    (last_size_check g) r (fh g) (rows_written g) (events g).

Definition fh_write g (line : string) : Globals R :=
  Build_Globals R (maxval g) (mx g) (b g) (width g) (height g) (z g)
    (minfound g) (maxfound g) (mousex g) (mousey g) (xoffset g) (yoffset g)
    (zoffset g) (xvelocity g) (yvelocity g) (zvelocity g) (framecount g)
    (last_size_check g) (renderer g) (fh g ++ [line]) (rows_written g)
    (events g).

Definition write_rows g (rows : list string) : Globals R :=
  Build_Globals R (maxval g) (mx g) (b g) (width g) (height g) (z g)
    (minfound g) (maxfound g) (mousex g) (mousey g) (xoffset g) (yoffset g)
    (zoffset g) (xvelocity g) (yvelocity g) (zvelocity g) (framecount g)
    (last_size_check g) (renderer g) (fh g) rows (events g).

(** Ghost: log the record whose action has just been completed. *)
Definition log_event g (e : MouseRawEvent) : Globals R :=
  Build_Globals R (maxval g) (mx g) (b g) (width g) (height g) (z g)
    (minfound g) (maxfound g) (mousex g) (mousey g) (xoffset g) (yoffset g)
    (zoffset g) (xvelocity g) (yvelocity g) (zvelocity g) (framecount g)
    (last_size_check g) (renderer g) (fh g) (rows_written g)
    (events g ++ [e]).

End GlobalsUpdate.

(** The module-level assignments before the main loop; [rows] and [cols]
    are what [screen.getmaxyx()] returns at start-up. *)
Definition initial_globals {R : Type} (rows cols : Z) (r : R) : Globals R :=
  {| maxval := 255; mx := 255 # 2; b := 255 # 2;
     width := cols; height := rows - 1; z := 0;
     minfound := 0; maxfound := 0;
     mousex := 0; mousey := 0;
     xoffset := 0; yoffset := 0; zoffset := 0;
     xvelocity := 1 # 100; yvelocity := 1 # 100; zvelocity := 0;
     framecount := 0; last_size_check := 0;
     renderer := r; fh := []; rows_written := []; events := [] |}.

(** [for a in l: body] over the variables [s]. *)
Fixpoint for_each {S A : Type} (body : S -> A -> Py.Outcome S) (l : list A)
  (s : S) : Py.Outcome S :=
  match l with
  | [] => Py.Done s
  | a :: l' => Py.seq (body s a) (for_each body l')
  end.

(** [mxplusb], the same text in the three programs: the line through
    [(act1, exp1)] and [(act2, exp2)]. *)
Definition mxplusb (exp1 act1 exp2 act2 : Q) : Py.Result (Q * Q) :=
  Py.bind (Py.div (exp2 - exp1) (act2 - act1)) (fun m =>
  let b := (exp1 - m * act1)%Q in
  Py.Ok (m, b)).

(** ["\x1B[48;2;{};{};{}m "] filled with three integers. *)
Definition rgb_token (r g b_color : Z) : string :=
  (String Py.esc "[48;2;" ++ Py.str r ++ ";" ++ Py.str g ++ ";"
   ++ Py.str b_color ++ "m ")%string.

(** A decimal integer from 0 to 255 without leading zeros. *)
Definition is_byte_decimal (s : string) : bool :=
  forallb Py.is_digit (list_ascii_of_string s)
  && match Py.digits s 0 false with
     | Some n => n <=? 255
     | None => false
     end
  && (String.eqb s "0" || negb (String.prefix "0" s)).

(** The color token of the output protocol:
    [ESC [ 48 ; 2 ; R ; G ; B m SPACE]. *)
Definition is_color_token (tok : string) : Prop :=
  exists R G B : string,
    tok = (String Py.esc "[48;2;" ++ R ++ ";" ++ G ++ ";" ++ B ++ "m ")%string
    /\ is_byte_decimal R = true
    /\ is_byte_decimal G = true
    /\ is_byte_decimal B = true.

(** A row string: [n] color tokens, one after the other. *)
Definition is_row (n : nat) (row : string) : Prop :=
  exists tokens : list string,
    List.length tokens = n
    /\ row = Py.join tokens
    /\ Forall is_color_token tokens.

(** [ord("q")] *)
Definition ord_q : Z := 113.

(* ================================================================== *)
(** * test4.py                                                         *)
(* ================================================================== *)

Module Test4.

Section Program.
(** [pnoise3] of the [noise] package: an opaque deterministic function. *)
Variable pnoise3 : Q -> Q -> Q -> Q.

Definition State : Type := Globals unit.

(** Lines 148-160: the body of [for entry in instreamelements1]. *)
Definition parse_entry (g : State) (entry : string) : Py.Outcome State :=
  if String.eqb entry "" then Py.Done g
  else
    let metainfo := Py.split ";" entry in
    Py.eval g (Py.index metainfo 0) (fun code =>
    if String.eqb code "35" then
      Py.eval g (Py.bind (Py.index metainfo 1) Py.int) (fun col =>
      let g := set_mousex g col in
      Py.eval g (Py.bind (Py.index metainfo 2) Py.int) (fun row =>
      let g := set_mousey g row in
      Py.Done (log_event g (Move col row))))
    else if String.eqb code "65" then
      let g := set_zvelocity g (zvelocity g - (1 # 100))%Q in
      Py.Done (log_event g WheelDown)
    else if String.eqb code "64" then
      let g := set_zvelocity g (zvelocity g + (1 # 100))%Q in
      Py.Done (log_event g WheelUp)
    else
      let g := fh_write g (String.concat ", " metainfo ++ Py.nl) in
      Py.Done (log_event g (Unrecognized metainfo))).

(** Lines 143-166: [if instream != "": ...]. *)
Definition parse_instream (g : State) (instream : string)
  : Py.Outcome State :=
  if String.eqb instream "" then Py.Done g
  else
    let instreamelements1 :=
      Py.split "M"
        (Py.remove_char "<" (Py.remove_char "[" (Py.remove_char Py.esc
           instream))) in
    for_each parse_entry instreamelements1 g.

(** Lines 172-182: the velocities from the mouse position, then the
    offsets. *)
Definition update_velocity (g : State) : Py.Outcome State :=
  Py.eval g (mxplusb (-1) 0 1 (inject_Z (width g))) (fun '(Xmx, Xb) =>
  let g := set_xvelocity g (inject_Z (mousex g) * Xmx + Xb)%Q in
  Py.eval g (mxplusb (-1) 0 1 (inject_Z (height g))) (fun '(Ymx, Yb) =>
  let g := set_yvelocity g (inject_Z (mousey g) * Ymx + Yb)%Q in
  Py.Done
    (set_offsets g (xoffset g + xvelocity g) (yoffset g + yvelocity g)
       (zoffset g + zvelocity g))%Q)).

(** Lines 214-216: [val = noiseval * mx + b], clamped from above only. *)
Definition intensity (noiseval mx b : Q) (maxval : Z) : Q :=
  let val := (noiseval * mx + b)%Q in
  if Py.gt val (inject_Z maxval) then inject_Z maxval else val.

(** Line 223: the token; [%d] truncates a float. *)
Definition token (val : Q) (framecount : Z) : string :=
  rgb_token (Py.trunc val) (Py.trunc (255 - val)) (framecount mod 255).

(** Lines 203-223: the body of [for x in range(width)]. *)
Definition render_cell (y : Z) (st : State * string) (x : Z)
  : State * string :=
  let '(g, linedata) := st in
  let xpos := (inject_Z x / 10 + xoffset g)%Q in
  let ypos := (inject_Z y / 5 + yoffset g)%Q in
  let zpos := (inject_Z (z g) / 5 + zoffset g)%Q in
  let noiseval := pnoise3 xpos ypos zpos in
  let val := intensity noiseval (mx g) (b g) (maxval g) in
  let g := set_found g (Py.min (minfound g) noiseval)
             (Py.max (maxfound g) noiseval) in
  (g, (linedata ++ token val (framecount g))%string).

(** The noise value of the cell in column [x] of row [y]. *)
Definition sample (g : State) (x y : Z) : Q :=
  pnoise3 (inject_Z x / 10 + xoffset g)%Q (inject_Z y / 5 + yoffset g)%Q
    (inject_Z (z g) / 5 + zoffset g)%Q.

(** What the cells of a frame read: the position in noise space, the
    grid, the mapping to intensities and the frame counter. *)
Definition scene (g : State) : Q * Q * Q * Z * Z * Z * Q * Q * Z * Z :=
  (xoffset g, yoffset g, zoffset g, z g, width g, height g, mx g, b g,
   maxval g, framecount g).

(** [g'] is [g] with [minfound] not raised and [maxfound] not lowered,
    and the same scene. *)
Definition widened (g g' : State) : Prop :=
  scene g' = scene g
  /\ (minfound g' <= minfound g)%Q /\ (maxfound g <= maxfound g')%Q.

(** The token of the cell in column [x] of row [y]. *)
Definition cell_token (g : State) (x y : Z) : string :=
  token (intensity (sample g x y) (mx g) (b g) (maxval g)) (framecount g).

(** The row strings of a frame, as a function of the variables at its
    start. *)
Definition frame_text (g : State) : list string :=
  map (fun y => Py.join (map (fun x => cell_token g x y)
                           (Py.range (width g))))
    (Py.range (height g)).

(** Lines 200-228: [for y in range(height)]; the result lists the
    [linedata] written to stdout, top row first. *)
Definition render_row (st : State * list string) (y : Z)
  : State * list string :=
  let '(g, written) := st in
  let '(g, linedata) :=
    fold_left (render_cell y) (Py.range (width g)) (g, EmptyString) in
  (g, written ++ [linedata]).

Definition render_rows (g : State) : State * list string :=
  fold_left render_row (Py.range (height g)) (g, []).

(** Line 236: the new [mx] and [b]. *)
Definition recalibrate (g : State) : Py.Outcome State :=
  Py.eval g (mxplusb 0 (minfound g) 255 (maxfound g)) (fun '(m, c) =>
  Py.Done (set_mx_b g m c)).

(** Lines 126-236: one iteration of [while(1)]. *)
Definition frame (g : State) (inp : FrameInput) : Py.Outcome State :=
  let g := set_framecount g (framecount g + 1) in
  let event := getch inp in
  let '(rows, cols) := getmaxyx inp in
  let g := set_size g cols (rows - 1) in
  Py.seq (parse_instream g (stdin inp)) (fun g =>
  if event =? ord_q then Py.Broke g
  else
    Py.seq (update_velocity g) (fun g =>
    let '(g, written) := render_rows g in
    recalibrate (write_rows g written))).

Definition initial (rows cols : Z) : State := initial_globals rows cols tt.

End Program.

End Test4.

(* ================================================================== *)
(** * test4_optimized.py                                               *)
(* ================================================================== *)

Module Test4Optimized.

(** ** [class NoiseRenderer] *)

Module NoiseRenderer.

(** The attributes of a renderer.  [x_coords] and [y_coords] are never
    read and are left out; [rgb_template] is the constant [rgb_token].
    [noise_calls] is a ghost attribute: the arguments of every call of
    [pnoise3] made through this renderer, the latest last. *)
Record t : Type := {
  width : Z;
  height : Z;
  noise_cache : list (Key * Q);
  cache_max_size : Z;
  frame_buffer : list string;
  line_buffers : list (list string);
  noise_calls : list Coordinate3       (* ghost *)
}.

Definition set_noise_cache (self : t) (c : list (Key * Q)) : t :=
  {| width := width self; height := height self; noise_cache := c;
     cache_max_size := cache_max_size self;
     frame_buffer := frame_buffer self;
     line_buffers := line_buffers self;
     noise_calls := noise_calls self |}.

Definition set_frame_buffer (self : t) (f : list string) : t :=
  {| width := width self; height := height self;
     noise_cache := noise_cache self;
     cache_max_size := cache_max_size self;
     frame_buffer := f;
     line_buffers := line_buffers self;
     noise_calls := noise_calls self |}.

Definition set_line_buffers (self : t) (l : list (list string)) : t :=
  {| width := width self; height := height self;
     noise_cache := noise_cache self;
     cache_max_size := cache_max_size self;
     frame_buffer := frame_buffer self;
     line_buffers := l;
     noise_calls := noise_calls self |}.

Definition log_noise_call (self : t) (c : Coordinate3) : t :=
  {| width := width self; height := height self;
     noise_cache := noise_cache self;
     cache_max_size := cache_max_size self;
     frame_buffer := frame_buffer self;
     line_buffers := line_buffers self;
     noise_calls := noise_calls self ++ [c] |}.

(** [__init__] *)
Definition init (width height : Z) : t :=
  {| width := width; height := height;
     noise_cache := [];
     cache_max_size := 10000;
     frame_buffer := [];
     line_buffers := map (fun _ => []) (Py.range height);
     noise_calls := [] |}.

(** [l[i] = v] at an index that exists. *)
Fixpoint store {A : Type} (l : list A) (i : nat) (v : A) : list A :=
  match l, i with
  | [], _ => []
  | _ :: l', O => v :: l'
  | a :: l', S i' => a :: store l' i' v
  end.

(** Line 78: [(round(x, 2), round(y, 2), round(z, 2))]. *)
Definition cache_key (x y z : Q) : Key :=
  (Py.round x 2, Py.round y 2, Py.round z 2).

(** The attributes that a cached lookup leaves alone. *)
Definition buffers (self : t)
  : Z * Z * Z * list string * list (list string) :=
  (width self, height self, cache_max_size self, frame_buffer self,
   line_buffers self).


(** The cache of a renderer in use: a [dict], not above its bound, the
    bound large enough for a fifth of it to be an entry. *)
Definition cache_ok (self : t) : Prop :=
  Dict.distinct_keys Key_eqb (noise_cache self)
  /\ Dict.len (noise_cache self) <= cache_max_size self
  /\ 5 <= cache_max_size self.

Section Methods.

Variable pnoise3 : Q -> Q -> Q -> Q.

(** [get_noise_cached]: the value, and the renderer as the call
    leaves it. *)
Definition get_noise_cached (self : t) (x y z : Q) : Py.Result (Q * t) :=
  let key := cache_key x y z in
  if Dict.contains Key_eqb (noise_cache self) key then
    Py.bind (Dict.getitem Key_eqb (noise_cache self) key) (fun v =>
    Py.Ok (v, self))
  else
    let value := pnoise3 x y z in
    let self := log_noise_call self (x, y, z) in
    Py.bind
      (if Dict.len (noise_cache self) >=? cache_max_size self then
         let items_to_remove :=
           Py.slice_to (cache_max_size self / 5)
             (Dict.keys (noise_cache self)) in
         Dict.del_all Key_eqb (noise_cache self) items_to_remove
       else Py.Ok (noise_cache self)) (fun cache =>
    let self := set_noise_cache self (Dict.set Key_eqb cache key value) in
    Py.Ok (value, self)).

(** Lines 109-120: the body of [for x in range(self.width)]. *)
Definition render_cell (ypos xoffset zoffset mx b : Q) (framecount : Z)
  (self : t) (line_parts : list string) (x : Z)
  : Py.Result (t * list string) :=
  let xpos := (inject_Z x / 10 + xoffset)%Q in
  let zpos := zoffset in
  Py.bind (get_noise_cached self xpos ypos zpos) (fun '(noiseval, self) =>
  let val := Py.trunc (noiseval * mx + b) in
  let val := Z.min (Z.max val 0) 255 in
  let '(r, g, b_color) := (val, 255 - val, framecount mod 255) in
  Py.Ok (self, line_parts ++ [rgb_token r g b_color])).

Fixpoint render_columns (ypos xoffset zoffset mx b : Q) (framecount : Z)
  (self : t) (line_parts : list string) (xs : list Z)
  : Py.Result (t * list string) :=
  match xs with
  | [] => Py.Ok (self, line_parts)
  | x :: xs' =>
      Py.bind
        (render_cell ypos xoffset zoffset mx b framecount self
           line_parts x) (fun '(self, line_parts) =>
      render_columns ypos xoffset zoffset mx b framecount self
        line_parts xs')
  end.

(** Lines 102-123: the body of [for y in range(self.height)].  The row
    is built in [self.line_buffers[y]], cleared first. *)
Definition render_row (xoffset yoffset zoffset mx b : Q) (framecount : Z)
  (self : t) (y : Z) : Py.Result t :=
  Py.bind (Py.index (line_buffers self) (Z.to_nat y)) (fun _ =>
  let line_parts := [] in
  let ypos := (inject_Z y / 5 + yoffset)%Q in
  Py.bind
    (render_columns ypos xoffset zoffset mx b framecount self line_parts
       (Py.range (width self))) (fun '(self, line_parts) =>
  let self :=
    set_line_buffers self
      (store (line_buffers self) (Z.to_nat y) line_parts) in
  Py.Ok
    (set_frame_buffer self (frame_buffer self ++ [Py.join line_parts])))).

Fixpoint render_rows (xoffset yoffset zoffset mx b : Q) (framecount : Z)
  (self : t) (ys : list Z) : Py.Result t :=
  match ys with
  | [] => Py.Ok self
  | y :: ys' =>
      Py.bind (render_row xoffset yoffset zoffset mx b framecount self y)
        (fun self =>
      render_rows xoffset yoffset zoffset mx b framecount self ys')
  end.

(** [render_frame_optimized]: what it returns is [self.frame_buffer]
    itself. *)
Definition render_frame_optimized (self : t)
  (xoffset yoffset zoffset mx b : Q) (framecount : Z)
  : Py.Result (list string * t) :=
  let self := set_frame_buffer self [] in
  Py.bind
    (render_rows xoffset yoffset zoffset mx b framecount self
       (Py.range (height self))) (fun self =>
  Py.Ok (frame_buffer self, self)).

(** What a miss at [(x, y, z)] makes of the cache: the oldest fifth of
    the bound gone if the cache was full, the new entry last. *)
Definition after_miss (self : t) (x y z : Q) : list (Key * Q) :=
  (if Dict.len (noise_cache self) >=? cache_max_size self
   then skipn (Z.to_nat (cache_max_size self / 5)) (noise_cache self)
   else noise_cache self)
  ++ [(cache_key x y z, pnoise3 x y z)].

(** A sequence of cached lookups, one after the other: the values
    returned and the renderer at the end. *)
Fixpoint lookups (self : t) (coords : list Coordinate3)
  : Py.Result (list Q * t) :=
  match coords with
  | [] => Py.Ok ([], self)
  | (x, y, z) :: coords' =>
      Py.bind (get_noise_cached self x y z) (fun '(v, self) =>
      Py.bind (lookups self coords') (fun '(vs, self) =>
      Py.Ok (v :: vs, self)))
  end.

End Methods.

End NoiseRenderer.

Section Program.

Variable pnoise3 : Q -> Q -> Q -> Q.

Definition State : Type := Globals NoiseRenderer.t.

(** Lines 217-223: what stands under [try:]. *)
Definition parse_fields (g : State) (metainfo : list string)
  : Py.Outcome State :=
  Py.eval g (Py.index metainfo 0) (fun code =>
  if String.eqb code "35" then
    Py.eval g (Py.bind (Py.index metainfo 1) Py.int) (fun col =>
    let g := set_mousex g col in
    Py.eval g (Py.bind (Py.index metainfo 2) Py.int) (fun row =>
    let g := set_mousey g row in
    Py.Done (log_event g (Move col row))))
  else if String.eqb code "65" then
    let g := set_zvelocity g (zvelocity g - (1 # 100))%Q in
    Py.Done (log_event g WheelDown)
  else if String.eqb code "64" then
    let g := set_zvelocity g (zvelocity g + (1 # 100))%Q in
    Py.Done (log_event g WheelUp)
  else Py.Done (log_event g (Unrecognized metainfo))).

(** Lines 211-225: the body of [for entry in instreamelements1].  The
    handler is [pass]; a segment that is dropped (too few fields, or an
    exception swallowed) is logged as [Unrecognized]. *)
Definition parse_entry (g : State) (entry : string) : Py.Outcome State :=
  if String.eqb entry "" then Py.Done g
  else
    let metainfo := Py.split ";" entry in
    if Z.of_nat (List.length metainfo) >=? 3 then
      Py.try_except (parse_fields g metainfo)
        [Py.ValueError; Py.IndexError]
        (fun g => Py.Done (log_event g (Unrecognized metainfo)))
    else Py.Done (log_event g (Unrecognized metainfo)).

(** Lines 207-225: [if instream: ...]. *)
Definition parse_instream (g : State) (instream : string)
  : Py.Outcome State :=
  if String.eqb instream "" then Py.Done g
  else
    let instreamelements1 :=
      Py.split "M"
        (Py.remove_char "<" (Py.remove_char "[" (Py.remove_char Py.esc
           instream))) in
    for_each parse_entry instreamelements1 g.

(** Lines 192-196: the screen size, read every 30th frame. *)
Definition check_size (g : State) (inp : FrameInput) : State :=
  if framecount g mod 30 =? 0 then
    let '(rows, cols) := getmaxyx inp in
    let g := set_size g cols (rows - 1) in
    if negb (NoiseRenderer.width (renderer g) =? width g)
       || negb (NoiseRenderer.height (renderer g) =? height g)
    then set_renderer g (NoiseRenderer.init (width g) (height g))
    else g
  else g.

(** Lines 231-241. *)
Definition update_velocity (g : State) : Py.Outcome State :=
  Py.eval g (mxplusb (-1) 0 1 (inject_Z (width g))) (fun '(Xmx, Xb) =>
  let g := set_xvelocity g (inject_Z (mousex g) * Xmx + Xb)%Q in
  Py.eval g (mxplusb (-1) 0 1 (inject_Z (height g))) (fun '(Ymx, Yb) =>
  let g := set_yvelocity g (inject_Z (mousey g) * Ymx + Yb)%Q in
  Py.Done
    (set_offsets g (xoffset g + xvelocity g) (yoffset g + yvelocity g)
       (zoffset g + zvelocity g))%Q)).

(** Line 254: the frame is rendered; the lines go to the terminal. *)
Definition render (g : State) : Py.Outcome State :=
  Py.eval g
    (NoiseRenderer.render_frame_optimized pnoise3 (renderer g)
       (xoffset g) (yoffset g) (zoffset g) (mx g) (b g) (framecount g))
    (fun '(frame_lines, self) =>
       Py.Done (write_rows (set_renderer g self) frame_lines)).

(** Lines 273-275: [if framecount % 10 == 0: [mx, b] = mxplusb(...)]. *)
Definition recalibrate (g : State) : Py.Outcome State :=
  if framecount g mod 10 =? 0 then
    Py.eval g (mxplusb 0 (minfound g) 255 (maxfound g)) (fun '(m, c) =>
    Py.Done (set_mx_b g m c))
  else Py.Done g.

(** Lines 185-275: one iteration of [while True], up to the
    recalibration and with it.  The clock (PerformanceMonitor, sleep) and
    the terminal output are outside the model. *)
Definition frame_body (g : State) (inp : FrameInput) : Py.Outcome State :=
  let g := set_framecount g (framecount g + 1) in
  let event := getch inp in
  let g := check_size g inp in
  Py.seq (parse_instream g (stdin inp)) (fun g =>
  if event =? ord_q then Py.Broke g
  else Py.seq (update_velocity g) render).

Definition frame (g : State) (inp : FrameInput) : Py.Outcome State :=
  Py.seq (frame_body g inp) recalibrate.

Definition initial (rows cols : Z) : State :=
  initial_globals rows cols (NoiseRenderer.init cols (rows - 1)).

(** The variables as the main loop can find them at the top of an
    iteration. *)
Inductive reachable : State -> Prop :=
  | reachable_initial (rows cols : Z) : reachable (initial rows cols)
  | reachable_frame (g : State) (inp : FrameInput) (g' : State) :
      reachable g -> frame g inp = Py.Done g' -> reachable g'.

(** [n] iterations that read the same input, as long as they end
    normally. *)
Fixpoint frames (n : nat) (g : State) (inp : FrameInput)
  : Py.Outcome State :=
  match n with
  | O => Py.Done g
  | S n' => Py.seq (frame g inp) (fun g' => frames n' g' inp)
  end.

End Program.

End Test4Optimized.

(* ================================================================== *)
(** * test4_optimized_v2.py                                            *)
(* ================================================================== *)

Module Test4OptimizedV2.

(** ** [class OptimizedNoiseRenderer] *)

Module OptimizedNoiseRenderer.

(** [escape_start], [escape_end] are the constants of [rgb_token] and
    [last_frame_time] is never read; [noise_calls] is ghost, as in
    test4_optimized.py. *)
Record t : Type := {
  width : Z;
  height : Z;
  enable_cache : bool;
  noise_cache : list (Key * Q);
  cache_max_size : Z;
  cache_hits : Z;
  cache_misses : Z;
  output_parts : list string;
  noise_calls : list Coordinate3       (* ghost *)
}.

Definition set_noise_cache (self : t) (c : list (Key * Q)) : t :=
  {| width := width self; height := height self;
     enable_cache := enable_cache self; noise_cache := c;
     cache_max_size := cache_max_size self;
     cache_hits := cache_hits self; cache_misses := cache_misses self;
     output_parts := output_parts self; noise_calls := noise_calls self |}.

Definition set_cache_hits (self : t) (n : Z) : t :=
  {| width := width self; height := height self;
     enable_cache := enable_cache self; noise_cache := noise_cache self;
     cache_max_size := cache_max_size self;
     cache_hits := n; cache_misses := cache_misses self;
     output_parts := output_parts self; noise_calls := noise_calls self |}.

Definition set_cache_misses (self : t) (n : Z) : t :=
  {| width := width self; height := height self;
     enable_cache := enable_cache self; noise_cache := noise_cache self;
     cache_max_size := cache_max_size self;
     cache_hits := cache_hits self; cache_misses := n;
     output_parts := output_parts self; noise_calls := noise_calls self |}.

Definition set_output_parts (self : t) (o : list string) : t :=
  {| width := width self; height := height self;
     enable_cache := enable_cache self; noise_cache := noise_cache self;
     cache_max_size := cache_max_size self;
     cache_hits := cache_hits self; cache_misses := cache_misses self;
     output_parts := o; noise_calls := noise_calls self |}.

Definition log_noise_call (self : t) (c : Coordinate3) : t :=
  {| width := width self; height := height self;
     enable_cache := enable_cache self; noise_cache := noise_cache self;
     cache_max_size := cache_max_size self;
     cache_hits := cache_hits self; cache_misses := cache_misses self;
     output_parts := output_parts self;
     noise_calls := noise_calls self ++ [c] |}.

(** [__init__] *)
Definition init (width height : Z) : t :=
  {| width := width; height := height;
     enable_cache := true;
     noise_cache := [];
     cache_max_size := 2000;
     cache_hits := 0; cache_misses := 0;
     output_parts := [];
     noise_calls := [] |}.

(** Line 86: [(round(x, 1), round(y, 1), round(z, 1))]. *)
Definition cache_key (x y z : Q) : Key :=
  (Py.round x 1, Py.round y 1, Py.round z 1).

(** The cache of a renderer in use: switched on, a [dict], not above its
    bound, the bound large enough for half of it to be an entry. *)
Definition cache_ok (self : t) : Prop :=
  enable_cache self = true
  /\ Dict.distinct_keys Key_eqb (noise_cache self)
  /\ Dict.len (noise_cache self) <= cache_max_size self
  /\ 2 <= cache_max_size self.

Section Methods.

Variable pnoise3 : Q -> Q -> Q -> Q.

(** [get_noise_optimized] *)
Definition get_noise_optimized (self : t) (x y z : Q)
  : Py.Result (Q * t) :=
  if negb (enable_cache self) then
    Py.Ok (pnoise3 x y z, log_noise_call self (x, y, z))
  else
    let key := cache_key x y z in
    if Dict.contains Key_eqb (noise_cache self) key then
      let self := set_cache_hits self (cache_hits self + 1) in
      Py.bind (Dict.getitem Key_eqb (noise_cache self) key) (fun v =>
      Py.Ok (v, self))
    else
      let value := pnoise3 x y z in
      let self := log_noise_call self (x, y, z) in
      let self := set_cache_misses self (cache_misses self + 1) in
      Py.bind
        (if Dict.len (noise_cache self) >=? cache_max_size self then
           let items_to_remove :=
             Py.slice_to (cache_max_size self / 2)
               (Dict.keys (noise_cache self)) in
           Dict.del_all Key_eqb (noise_cache self) items_to_remove
         else Py.Ok (noise_cache self)) (fun cache =>
      let self :=
        set_noise_cache self (Dict.set Key_eqb cache key value) in
      Py.Ok (value, self)).

(** Lines 116-131: the body of [for x in range(self.width)]. *)
Definition render_cell (ypos xoffset zoffset mx b : Q) (framecount : Z)
  (self : t) (line_parts : list string) (x : Z)
  : Py.Result (t * list string) :=
  let xpos := (inject_Z x / 10 + xoffset)%Q in
  Py.bind (get_noise_optimized self xpos ypos zoffset)
    (fun '(noiseval, self) =>
  let val := Py.trunc (noiseval * mx + b) in
  let val := if val <? 0 then 0 else if val >? 255 then 255 else val in
  let '(r, g, b_color) := (val, 255 - val, framecount mod 255) in
  Py.Ok (self, line_parts ++ [rgb_token r g b_color])).

Fixpoint render_columns (ypos xoffset zoffset mx b : Q) (framecount : Z)
  (self : t) (line_parts : list string) (xs : list Z)
  : Py.Result (t * list string) :=
  match xs with
  | [] => Py.Ok (self, line_parts)
  | x :: xs' =>
      Py.bind
        (render_cell ypos xoffset zoffset mx b framecount self
           line_parts x) (fun '(self, line_parts) =>
      render_columns ypos xoffset zoffset mx b framecount self
        line_parts xs')
  end.

(** Lines 111-133: the body of [for y in range(self.height)]. *)
Definition render_row (xoffset yoffset zoffset mx b : Q) (framecount : Z)
  (self : t) (y : Z) : Py.Result t :=
  let ypos := (inject_Z y / 5 + yoffset)%Q in
  let line_parts := [] in
  Py.bind
    (render_columns ypos xoffset zoffset mx b framecount self line_parts
       (Py.range (width self))) (fun '(self, line_parts) =>
  Py.Ok
    (set_output_parts self (output_parts self ++ [Py.join line_parts]))).

Fixpoint render_rows (xoffset yoffset zoffset mx b : Q) (framecount : Z)
  (self : t) (ys : list Z) : Py.Result t :=
  match ys with
  | [] => Py.Ok self
  | y :: ys' =>
      Py.bind (render_row xoffset yoffset zoffset mx b framecount self y)
        (fun self =>
      render_rows xoffset yoffset zoffset mx b framecount self ys')
  end.

(** [render_frame_fast]: what it returns is [self.output_parts]. *)
Definition render_frame_fast (self : t)
  (xoffset yoffset zoffset mx b : Q) (framecount : Z)
  : Py.Result (list string * t) :=
  let self := set_output_parts self [] in
  Py.bind
    (render_rows xoffset yoffset zoffset mx b framecount self
       (Py.range (height self))) (fun self =>
  Py.Ok (output_parts self, self)).

(** What a miss at [(x, y, z)] makes of the cache: the oldest half of
    the bound gone if the cache was full, the new entry last. *)
Definition after_miss (self : t) (x y z : Q) : list (Key * Q) :=
  (if Dict.len (noise_cache self) >=? cache_max_size self
   then skipn (Z.to_nat (cache_max_size self / 2)) (noise_cache self)
   else noise_cache self)
  ++ [(cache_key x y z, pnoise3 x y z)].

(** A sequence of cached lookups, one after the other. *)
Fixpoint lookups (self : t) (coords : list Coordinate3)
  : Py.Result (list Q * t) :=
  match coords with
  | [] => Py.Ok ([], self)
  | (x, y, z) :: coords' =>
      Py.bind (get_noise_optimized self x y z) (fun '(v, self) =>
      Py.bind (lookups self coords') (fun '(vs, self) =>
      Py.Ok (v :: vs, self)))
  end.

End Methods.

End OptimizedNoiseRenderer.

Section Program.

Variable pnoise3 : Q -> Q -> Q -> Q.

Definition State : Type := Globals OptimizedNoiseRenderer.t.

(** Lines 227-235: what stands under [try:]. *)
Definition parse_elements (g : State) (part : string) : Py.Outcome State :=
  let elements := Py.split ";" part in
  if Z.of_nat (List.length elements) >=? 3 then
    Py.eval g (Py.index elements 0) (fun code =>
    if String.eqb code "35" then
      Py.eval g (Py.bind (Py.index elements 1) Py.int) (fun col =>
      let g := set_mousex g col in
      Py.eval g (Py.bind (Py.index elements 2) Py.int) (fun row =>
      let g := set_mousey g row in
      Py.Done (log_event g (Move col row))))
    else if String.eqb code "65" then
      let g := set_zvelocity g (zvelocity g - (1 # 100))%Q in
      Py.Done (log_event g WheelDown)
    else if String.eqb code "64" then
      let g := set_zvelocity g (zvelocity g + (1 # 100))%Q in
      Py.Done (log_event g WheelUp)
    else Py.Done (log_event g (Unrecognized elements)))
  else Py.Done (log_event g (Unrecognized elements)).

(** Lines 224-237: the body of [for part in parts]; the handler is
    [continue].  A part without [;] is passed over: it is logged as
    [Unrecognized] unless it is empty. *)
Definition parse_part (g : State) (part : string) : Py.Outcome State :=
  if Py.contains_char ";" part then
    Py.try_except (parse_elements g part) [Py.ValueError; Py.IndexError]
      (fun g => Py.Done (log_event g (Unrecognized (Py.split ";" part))))
  else if String.eqb part "" then Py.Done g
  else Py.Done (log_event g (Unrecognized [part])).

(** Lines 221-237: [if instream: ...]. *)
Definition parse_instream (g : State) (instream : string)
  : Py.Outcome State :=
  if String.eqb instream "" then Py.Done g
  else
    let parts :=
      Py.split "M" (Py.remove_sub (String Py.esc "[<") instream) in
    for_each parse_part parts g.

(** Lines 207-213: the screen size, read when 30 frames have passed. *)
Definition check_size (g : State) (inp : FrameInput) : State :=
  if framecount g - last_size_check g >? 30 then
    let '(rows, new_width) := getmaxyx inp in
    let new_height := rows - 1 in
    let g :=
      if negb (new_width =? width g) || negb (new_height =? height g)
      then
        let g := set_size g new_width new_height in
        set_renderer g (OptimizedNoiseRenderer.init (width g) (height g))
      else g in
    set_last_size_check g (framecount g)
  else g.

(** Lines 243-252: the simplified velocities, then the offsets. *)
Definition update_velocity (g : State) : State :=
  let xcentre := (inject_Z (width g) / 2)%Q in
  let ycentre := (inject_Z (height g) / 2)%Q in
  let g :=
    set_xvelocity g ((inject_Z (mousex g) - xcentre) * (1 # 1000))%Q in
  let g :=
    set_yvelocity g ((inject_Z (mousey g) - ycentre) * (1 # 1000))%Q in
  set_offsets g (xoffset g + xvelocity g)%Q (yoffset g + yvelocity g)%Q
    (zoffset g + zvelocity g)%Q.

(** Line 255. *)
Definition render (g : State) : Py.Outcome State :=
  Py.eval g
    (OptimizedNoiseRenderer.render_frame_fast pnoise3 (renderer g)
       (xoffset g) (yoffset g) (zoffset g) (mx g) (b g) (framecount g))
    (fun '(frame_lines, self) =>
       Py.Done (write_rows (set_renderer g self) frame_lines)).

(** Lines 285-287. *)
Definition recalibrate (g : State) : Py.Outcome State :=
  if framecount g mod 10 =? 0 then
    Py.eval g (mxplusb 0 (minfound g) 255 (maxfound g)) (fun '(m, c) =>
    Py.Done (set_mx_b g m c))
  else Py.Done g.

(** Lines 200-287: one iteration of [while True]; the clock and the
    terminal output are outside the model. *)
Definition frame_body (g : State) (inp : FrameInput) : Py.Outcome State :=
  let g := set_framecount g (framecount g + 1) in
  let event := getch inp in
  let g := check_size g inp in
  Py.seq (parse_instream g (stdin inp)) (fun g =>
  if event =? ord_q then Py.Broke g
  else render (update_velocity g)).

Definition frame (g : State) (inp : FrameInput) : Py.Outcome State :=
  Py.seq (frame_body g inp) recalibrate.

Definition initial (rows cols : Z) : State :=
  initial_globals rows cols (OptimizedNoiseRenderer.init cols (rows - 1)).

(** The variables as the main loop can find them at the top of an
    iteration. *)
Inductive reachable : State -> Prop :=
  | reachable_initial (rows cols : Z) : reachable (initial rows cols)
  | reachable_frame (g : State) (inp : FrameInput) (g' : State) :
      reachable g -> frame g inp = Py.Done g' -> reachable g'.

(** [n] iterations that read the same input, as long as they end
    normally. *)
Fixpoint frames (n : nat) (g : State) (inp : FrameInput)
  : Py.Outcome State :=
  match n with
  | O => Py.Done g
  | S n' => Py.seq (frame g inp) (fun g' => frames n' g' inp)
  end.

End Program.

End Test4OptimizedV2.

(* ================================================================== *)
(** * The velocity lines on binary64 numbers                           *)
(* ================================================================== *)

(** Lines 172-178 of test4.py (231-237 of test4_optimized.py) and lines
    243-248 of test4_optimized_v2.py once more, with Python's floats as the
    kernel's binary64 numbers, so that the rounding of [/], [*] and [+] is
    the program's own. *)

Module Binary64.

Import Floats.

(** An [int] converted to [float]; exact below [2**53]. *)
Definition of_int (n : Z) : float :=
  if n <? 0 then PrimFloat.opp (PrimFloat.of_uint63 (Uint63.of_Z (- n)))
  else PrimFloat.of_uint63 (Uint63.of_Z n).

Definition mxplusb (exp1 act1 exp2 act2 : float)
  : Py.Result (float * float) :=
  if PrimFloat.eqb (act2 - act1)%float 0%float
  then Py.Raise Py.ZeroDivisionError
  else
    let m := ((exp2 - exp1) / (act2 - act1))%float in
    let b := (exp1 - (m * act1))%float in
    Py.Ok (m, b).

(** [mxplusb(-1, 0, 1, size)] and [position * m + b]. *)
Definition velocity (size position : Z) : Py.Result float :=
  Py.bind (mxplusb (of_int (-1)) (of_int 0) (of_int 1) (of_int size))
    (fun '(m, b) => Py.Ok (of_int position * m + b)%float).

(** [centre = size/2] and [(position - centre) * 0.001]. *)
#[warnings="-inexact-float"]
Definition velocity_v2 (size position : Z) : float :=
  let centre := (of_int size / of_int 2)%float in
  ((of_int position - centre) * 0.001)%float.

(** The velocity at the centre of every screen of even width (or height)
    from 2 to [2 * n] is 0 or [-2**-53]. *)
Definition centre_residues (n : nat) : bool :=
  forallb
    (fun k =>
       match velocity (2 * Z.of_nat k) (Z.of_nat k) with
       | Py.Ok v =>
           PrimFloat.eqb v (of_int 0)
           || PrimFloat.eqb v (of_int (-1) / of_int (2 ^ 53))%float
       | Py.Raise _ => false
       end)
    (List.seq 1 n).

End Binary64.

(* ================================================================== *)
(** * Noise sources used in examples                                   *)
(* ================================================================== *)

(** A terminal of [rows] by [cols], no key pressed and nothing to read. *)
Definition quiet_input (rows cols : Z) : FrameInput :=
  {| getch := -1; getmaxyx := (rows, cols); stdin := EmptyString |}.

(** The chunk of the decoder's example: a move to (10, 5), a wheel report
    of one field, and a segment that is no report. *)
Definition example_chunk : string :=
  (String Py.esc "[<35;10;5M" ++ String Py.esc "[<64M"
   ++ String Py.esc "[<garbageM")%string.


(** A noise source that dips: -0.2 where [x] is -1, and -0.5 elsewhere. *)
Definition dipping_noise : Q -> Q -> Q -> Q :=
  fun x _ _ => if Qeq_bool x (-1) then (- (1 # 5))%Q else (- (1 # 2))%Q.

(** A noise source that returns the same value everywhere. *)
Definition constant_noise (c : Q) : Q -> Q -> Q -> Q := fun _ _ _ => c.

(** A noise source that returns its first coordinate: it tells a position
    from the key it is rounded to. *)
Definition first_coordinate_noise : Q -> Q -> Q -> Q := fun x _ _ => x.

(** A renderer of test4_optimized.py whose cache is full, with a bound of
    five entries in place of the 10000 of [__init__]. *)
Definition full_renderer : Test4Optimized.NoiseRenderer.t :=
  {| Test4Optimized.NoiseRenderer.width := 1;
     Test4Optimized.NoiseRenderer.height := 1;
     Test4Optimized.NoiseRenderer.noise_cache :=
       [((0, 0, 0), 0); ((1, 0, 0), 1); ((2, 0, 0), 2); ((3, 0, 0), 3);
        ((4, 0, 0), 4)]%Q;
     Test4Optimized.NoiseRenderer.cache_max_size := 5;
     Test4Optimized.NoiseRenderer.frame_buffer := [];
     Test4Optimized.NoiseRenderer.line_buffers := [[]];
     Test4Optimized.NoiseRenderer.noise_calls :=
       [(0, 0, 0); (1, 0, 0); (2, 0, 0); (3, 0, 0); (4, 0, 0)]%Q |}.

(** A renderer of test4_optimized_v2.py whose cache is full, with a bound
    of four entries in place of the 2000 of [__init__]. *)
Definition full_renderer_v2 : Test4OptimizedV2.OptimizedNoiseRenderer.t :=
  {| Test4OptimizedV2.OptimizedNoiseRenderer.width := 1;
     Test4OptimizedV2.OptimizedNoiseRenderer.height := 1;
     Test4OptimizedV2.OptimizedNoiseRenderer.enable_cache := true;
     Test4OptimizedV2.OptimizedNoiseRenderer.noise_cache :=
       [((0, 0, 0), 0); ((1, 0, 0), 1); ((2, 0, 0), 2); ((3, 0, 0), 3)]%Q;
     Test4OptimizedV2.OptimizedNoiseRenderer.cache_max_size := 4;
     Test4OptimizedV2.OptimizedNoiseRenderer.cache_hits := 0;
     Test4OptimizedV2.OptimizedNoiseRenderer.cache_misses := 4;
     Test4OptimizedV2.OptimizedNoiseRenderer.output_parts := [];
     Test4OptimizedV2.OptimizedNoiseRenderer.noise_calls :=
       [(0, 0, 0); (1, 0, 0); (2, 0, 0); (3, 0, 0)]%Q |}.

(* ================================================================== *)
(** * Properties of the builtins                                       *)
(* ================================================================== *)

(** ** Keys: [==] on tuples of floats is an equivalence *)

Lemma Key_eqb_refl (k : Key) : Key_eqb k k = true.
Proof.
  destruct k as [[k1 k2] k3]; unfold Key_eqb.
  rewrite !andb_true_iff, !Qeq_bool_iff; repeat split; reflexivity.
Qed.

Lemma Key_eqb_sym (j k : Key) : Key_eqb j k = Key_eqb k j.
Proof.
  assert (Hs : forall p q, Qeq_bool p q = Qeq_bool q p).
  { intros p q. destruct (Qeq_bool p q) eqn:E; symmetry.
    - apply Qeq_bool_iff. symmetry. now apply Qeq_bool_iff.
    - destruct (Qeq_bool q p) eqn:E'; [|reflexivity].
      apply Qeq_bool_iff in E'. symmetry in E'.
      apply Qeq_bool_iff in E'. congruence. }
  destruct j as [[j1 j2] j3], k as [[k1 k2] k3]; unfold Key_eqb.
  now rewrite (Hs j1), (Hs j2), (Hs j3).
Qed.

Lemma Key_eqb_trans (i j k : Key) :
  Key_eqb i j = true -> Key_eqb j k = true -> Key_eqb i k = true.
Proof.
  destruct i as [[i1 i2] i3], j as [[j1 j2] j3], k as [[k1 k2] k3].
  unfold Key_eqb. rewrite !andb_true_iff, !Qeq_bool_iff.
  intros [[A1 A2] A3] [[B1 B2] B3]; repeat split; etransitivity; eassumption.
Qed.

(** ** Dictionaries *)

Section DictFacts.

Context {K V : Type}.
Variable eqb : K -> K -> bool.
Hypothesis eqb_refl : forall k, eqb k k = true.
Hypothesis eqb_sym : forall j k, eqb j k = eqb k j.
Hypothesis eqb_trans :
  forall i j k, eqb i j = true -> eqb j k = true -> eqb i k = true.

Implicit Type d : list (K * V).

Lemma eqb_false_r (i j k : K) :
  eqb i j = true -> eqb i k = false -> eqb j k = false.
Proof.
  intros Hij Hik. destruct (eqb j k) eqn:E; [|reflexivity].
  rewrite (eqb_trans i j k Hij E) in Hik. discriminate.
Qed.

(** Equal keys find the same entry. *)
Lemma get_congr d (j k : K) :
  eqb j k = true -> Dict.get eqb d j = Dict.get eqb d k.
Proof.
  intros Hjk. induction d as [|[k' v] d IH]; simpl; [reflexivity|].
  destruct (eqb j k') eqn:E.
  - rewrite eqb_sym in Hjk. now rewrite (eqb_trans k j k' Hjk E).
  - now rewrite (eqb_false_r j k k' Hjk E).
Qed.

Lemma contains_congr d (j k : K) :
  eqb j k = true -> Dict.contains eqb d j = Dict.contains eqb d k.
Proof. intros H. unfold Dict.contains. now rewrite (get_congr d j k H). Qed.

Lemma contains_cons d (k k' : K) (v : V) :
  Dict.contains eqb ((k', v) :: d) k = eqb k k' || Dict.contains eqb d k.
Proof. unfold Dict.contains; simpl. now destruct (eqb k k'). Qed.

Lemma contains_app d d' (k : K) :
  Dict.contains eqb (d ++ d') k
  = Dict.contains eqb d k || Dict.contains eqb d' k.
Proof.
  induction d as [|[k' v] d IH]; [reflexivity|].
  simpl app. rewrite !contains_cons, IH. now rewrite orb_assoc.
Qed.

Lemma contains_get d (k : K) :
  Dict.contains eqb d k = true -> exists v, Dict.get eqb d k = Some v.
Proof.
  unfold Dict.contains. destruct (Dict.get eqb d k) as [v|]; [|discriminate].
  now exists v.
Qed.

Lemma getitem_get d (k : K) (v : V) :
  Dict.get eqb d k = Some v -> Dict.getitem eqb d k = Py.Ok v.
Proof. unfold Dict.getitem. now intros ->. Qed.

(** A new key goes last. *)
Lemma set_absent d (k : K) (v : V) :
  Dict.contains eqb d k = false -> Dict.set eqb d k v = d ++ [(k, v)].
Proof.
  induction d as [|[k' v'] d IH]; [reflexivity|].
  rewrite contains_cons, orb_false_iff. intros [E H]. simpl.
  now rewrite E, IH.
Qed.

Lemma get_absent_app d (k k0 : K) (v : V) :
  Dict.contains eqb d k = false -> eqb k0 k = true ->
  Dict.get eqb (d ++ [(k, v)]) k0 = Some v.
Proof.
  intros Hd Hk. rewrite (get_congr _ k0 k Hk).
  induction d as [|[k' v'] d IH]; simpl.
  - now rewrite eqb_refl.
  - rewrite contains_cons, orb_false_iff in Hd. destruct Hd as [E H].
    rewrite E. now apply IH.
Qed.

(** An entry that is present stays when a new key is added. *)
Lemma get_app_present d d' (k : K) (v : V) :
  Dict.get eqb d k = Some v -> Dict.get eqb (d ++ d') k = Some v.
Proof.
  induction d as [|[k' v'] d IH]; simpl; [discriminate|].
  destruct (eqb k k'); auto.
Qed.

Lemma contains_skipn d (k : K) (n : nat) :
  Dict.contains eqb d k = false -> Dict.contains eqb (skipn n d) k = false.
Proof.
  revert d. induction n as [|n IH]; intros d H; [exact H|].
  destruct d as [|[k' v] d]; [exact H|].
  rewrite contains_cons, orb_false_iff in H. simpl. apply IH, H.
Qed.

Lemma distinct_keys_skipn d (n : nat) :
  Dict.distinct_keys eqb d -> Dict.distinct_keys eqb (skipn n d).
Proof.
  revert d. induction n as [|n IH]; intros d H; [exact H|].
  destruct d as [|[k v] d]; [exact H|]. simpl. apply IH, H.
Qed.

Lemma distinct_keys_app_new d (k : K) (v : V) :
  Dict.distinct_keys eqb d -> Dict.contains eqb d k = false ->
  Dict.distinct_keys eqb (d ++ [(k, v)]).
Proof.
  induction d as [|[k' v'] d IH]; simpl.
  - intros _ _. split; [reflexivity|exact I].
  - intros [Hk' Hd]. rewrite contains_cons, orb_false_iff. intros [E H].
    split; [|now apply IH].
    rewrite contains_app, Hk', contains_cons. simpl.
    rewrite eqb_sym, E. reflexivity.
Qed.

(** Deleting the first [n] keys, one by one, leaves the entries after
    them, and raises nothing. *)
Lemma del_all_first_keys d (n : nat) :
  Dict.distinct_keys eqb d ->
  Dict.del_all eqb d (firstn n (Dict.keys d)) = Py.Ok (skipn n d).
Proof.
  revert d. induction n as [|n IH]; intros d H; [reflexivity|].
  destruct d as [|[k v] d]; [reflexivity|].
  simpl. rewrite eqb_refl. simpl. apply IH, H.
Qed.

(** The eviction of [get_noise_cached] and [get_noise_optimized]. *)
Lemma evict_oldest d (max n : Z) :
  Dict.distinct_keys eqb d -> 0 <= n ->
  (if Dict.len d >=? max
   then Dict.del_all eqb d (Py.slice_to n (Dict.keys d))
   else Py.Ok d)
  = Py.Ok (if Dict.len d >=? max then skipn (Z.to_nat n) d else d).
Proof.
  intros Hd Hn. destruct (Dict.len d >=? max); [|reflexivity].
  unfold Py.slice_to. destruct (0 <=? n) eqn:E; [|lia].
  now apply del_all_first_keys.
Qed.

End DictFacts.

(* ================================================================== *)
(** * The noise cache of test4_optimized.py                            *)
(* ================================================================== *)

Module CacheFacts.

Import Test4Optimized.NoiseRenderer.

Section WithNoise.

Variable pnoise3 : Q -> Q -> Q -> Q.

Lemma get_noise_cached_hit (self : t) (x y z v : Q) :
  Dict.get Key_eqb (noise_cache self) (cache_key x y z) = Some v ->
  get_noise_cached pnoise3 self x y z = Py.Ok (v, self).
Proof.
  intros H. unfold get_noise_cached, Dict.contains, Dict.getitem.
  now rewrite H.
Qed.

Lemma get_noise_cached_miss (self : t) (x y z : Q) :
  cache_ok self ->
  Dict.contains Key_eqb (noise_cache self) (cache_key x y z) = false ->
  get_noise_cached pnoise3 self x y z
  = Py.Ok (pnoise3 x y z,
           set_noise_cache (log_noise_call self (x, y, z))
             (after_miss pnoise3 self x y z)).
Proof.
  intros (Hd & Hlen & Hmax) Hk. unfold get_noise_cached. rewrite Hk.
  cbn [noise_cache cache_max_size log_noise_call].
  rewrite (evict_oldest Key_eqb Key_eqb_refl) by
    (try assumption; apply Z.div_pos; lia).
  cbn [Py.bind]. rewrite (set_absent Key_eqb); [reflexivity|].
  destruct (Dict.len (noise_cache self) >=? cache_max_size self);
    [now apply contains_skipn | assumption].
Qed.

Lemma after_miss_length (self : t) (x y z : Q) :
  cache_ok self ->
  Dict.len (after_miss pnoise3 self x y z) <= cache_max_size self.
Proof.
  intros (Hd & Hlen & Hmax). unfold after_miss, Dict.len in *.
  rewrite length_app. cbn [List.length].
  destruct (Z.of_nat (List.length (noise_cache self))
            >=? cache_max_size self) eqn:E.
  - rewrite length_skipn.
    assert (1 <= cache_max_size self / 5)
      by (apply Z.div_le_lower_bound; lia).
    assert (cache_max_size self / 5 <= cache_max_size self)
      by (apply Z.div_le_upper_bound; lia).
    lia.
  - lia.
Qed.

Lemma after_miss_distinct (self : t) (x y z : Q) :
  cache_ok self ->
  Dict.contains Key_eqb (noise_cache self) (cache_key x y z) = false ->
  Dict.distinct_keys Key_eqb (after_miss pnoise3 self x y z).
Proof.
  intros (Hd & Hlen & Hmax) Hk. unfold after_miss.
  apply (distinct_keys_app_new Key_eqb Key_eqb_sym);
    destruct (Dict.len (noise_cache self) >=? cache_max_size self);
    auto using distinct_keys_skipn, contains_skipn.
Qed.

(** A lookup never raises, and leaves the cache a [dict] within its
    bound. *)
Lemma get_noise_cached_ok (self : t) (x y z : Q) :
  cache_ok self ->
  exists v self',
    get_noise_cached pnoise3 self x y z = Py.Ok (v, self')
    /\ cache_ok self'
    /\ cache_max_size self' = cache_max_size self.
Proof.
  intros Hok.
  destruct (Dict.contains Key_eqb (noise_cache self) (cache_key x y z))
    eqn:Hk.
  - destruct (contains_get _ _ _ Hk) as [v Hv].
    exists v, self. split; [now apply get_noise_cached_hit|now split].
  - exists (pnoise3 x y z). eexists. split; [now apply get_noise_cached_miss|].
    split; [|reflexivity].
    unfold cache_ok. cbn [noise_cache cache_max_size set_noise_cache].
    cbn [cache_max_size log_noise_call].
    split; [now apply after_miss_distinct|].
    split; [now apply after_miss_length|apply Hok].
Qed.

Lemma lookups_ok (coords : list Coordinate3) (self : t) :
  cache_ok self ->
  exists vs self',
    lookups pnoise3 self coords = Py.Ok (vs, self')
    /\ cache_ok self'
    /\ cache_max_size self' = cache_max_size self.
Proof.
  revert self. induction coords as [|[[x y] z] coords IH]; intros self Hok.
  - exists [], self. split; [reflexivity|]. split; [exact Hok|reflexivity].
  - destruct (get_noise_cached_ok self x y z Hok)
      as (v & self1 & Hget & Hok1 & Hmax1).
    destruct (IH self1 Hok1) as (vs & self2 & Hrun & Hok2 & Hmax2).
    exists (v :: vs), self2. cbn [lookups]. rewrite Hget. cbn [Py.bind].
    rewrite Hrun. cbn [Py.bind].
    split; [reflexivity|]. split; [exact Hok2|congruence].
Qed.

Lemma init_cache_ok (width height : Z) : cache_ok (init width height).
Proof. repeat split; cbn; lia. Qed.

End WithNoise.

End CacheFacts.

(* ================================================================== *)
(** * The noise cache of test4_optimized_v2.py                         *)
(* ================================================================== *)

Module CacheFactsV2.

Import Test4OptimizedV2.OptimizedNoiseRenderer.

Section WithNoise.

Variable pnoise3 : Q -> Q -> Q -> Q.

Lemma get_noise_optimized_hit (self : t) (x y z v : Q) :
  enable_cache self = true ->
  Dict.get Key_eqb (noise_cache self) (cache_key x y z) = Some v ->
  get_noise_optimized pnoise3 self x y z
  = Py.Ok (v, set_cache_hits self (cache_hits self + 1)).
Proof.
  intros He H. unfold get_noise_optimized, Dict.contains, Dict.getitem.
  rewrite He. cbn [negb noise_cache set_cache_hits]. now rewrite H.
Qed.

Lemma get_noise_optimized_miss (self : t) (x y z : Q) :
  cache_ok self ->
  Dict.contains Key_eqb (noise_cache self) (cache_key x y z) = false ->
  get_noise_optimized pnoise3 self x y z
  = Py.Ok (pnoise3 x y z,
           set_noise_cache
             (set_cache_misses (log_noise_call self (x, y, z))
                (cache_misses self + 1))
             (after_miss pnoise3 self x y z)).
Proof.
  intros (He & Hd & Hlen & Hmax) Hk. unfold get_noise_optimized.
  rewrite He, Hk.
  cbn [negb noise_cache cache_max_size cache_misses log_noise_call
       set_cache_misses].
  rewrite (evict_oldest Key_eqb Key_eqb_refl) by
    (try assumption; apply Z.div_pos; lia).
  cbn [Py.bind]. rewrite (set_absent Key_eqb); [reflexivity|].
  destruct (Dict.len (noise_cache self) >=? cache_max_size self);
    [now apply contains_skipn | assumption].
Qed.

Lemma after_miss_length_v2 (self : t) (x y z : Q) :
  cache_ok self ->
  Dict.len (after_miss pnoise3 self x y z) <= cache_max_size self.
Proof.
  intros (He & Hd & Hlen & Hmax). unfold after_miss, Dict.len in *.
  rewrite length_app. cbn [List.length].
  destruct (Z.of_nat (List.length (noise_cache self))
            >=? cache_max_size self) eqn:E.
  - rewrite length_skipn.
    assert (1 <= cache_max_size self / 2)
      by (apply Z.div_le_lower_bound; lia).
    assert (cache_max_size self / 2 <= cache_max_size self)
      by (apply Z.div_le_upper_bound; lia).
    lia.
  - lia.
Qed.

Lemma after_miss_distinct_v2 (self : t) (x y z : Q) :
  cache_ok self ->
  Dict.contains Key_eqb (noise_cache self) (cache_key x y z) = false ->
  Dict.distinct_keys Key_eqb (after_miss pnoise3 self x y z).
Proof.
  intros (He & Hd & Hlen & Hmax) Hk. unfold after_miss.
  apply (distinct_keys_app_new Key_eqb Key_eqb_sym);
    destruct (Dict.len (noise_cache self) >=? cache_max_size self);
    auto using distinct_keys_skipn, contains_skipn.
Qed.

Lemma get_noise_optimized_ok (self : t) (x y z : Q) :
  cache_ok self ->
  exists v self',
    get_noise_optimized pnoise3 self x y z = Py.Ok (v, self')
    /\ cache_ok self'
    /\ cache_max_size self' = cache_max_size self.
Proof.
  intros Hok.
  destruct (Dict.contains Key_eqb (noise_cache self) (cache_key x y z))
    eqn:Hk.
  - destruct (contains_get _ _ _ Hk) as [v Hv].
    exists v. eexists.
    split; [apply get_noise_optimized_hit; [apply Hok|exact Hv]|].
    split; [exact Hok|reflexivity].
  - exists (pnoise3 x y z). eexists.
    split; [now apply get_noise_optimized_miss|].
    split; [|reflexivity].
    unfold cache_ok.
    cbn [noise_cache cache_max_size enable_cache set_noise_cache].
    cbn [cache_max_size enable_cache set_cache_misses log_noise_call].
    split; [apply Hok|].
    split; [now apply after_miss_distinct_v2|].
    split; [now apply after_miss_length_v2|apply Hok].
Qed.

Lemma lookups_ok_v2 (coords : list Coordinate3) (self : t) :
  cache_ok self ->
  exists vs self',
    lookups pnoise3 self coords = Py.Ok (vs, self')
    /\ cache_ok self'
    /\ cache_max_size self' = cache_max_size self.
Proof.
  revert self. induction coords as [|[[x y] z] coords IH]; intros self Hok.
  - exists [], self. split; [reflexivity|]. split; [exact Hok|reflexivity].
  - destruct (get_noise_optimized_ok self x y z Hok)
      as (v & self1 & Hget & Hok1 & Hmax1).
    destruct (IH self1 Hok1) as (vs & self2 & Hrun & Hok2 & Hmax2).
    exists (v :: vs), self2. cbn [lookups]. rewrite Hget. cbn [Py.bind].
    rewrite Hrun. cbn [Py.bind].
    split; [reflexivity|]. split; [exact Hok2|congruence].
Qed.

Lemma init_cache_ok_v2 (width height : Z) : cache_ok (init width height).
Proof. repeat split; cbn; lia. Qed.

End WithNoise.

End CacheFactsV2.

(* ================================================================== *)
(** * The cache: bound, reuse and batch eviction                       *)
(* ================================================================== *)

Module V1 := Test4Optimized.NoiseRenderer.
Module V2 := Test4OptimizedV2.OptimizedNoiseRenderer.

(** C2.  Whatever sequence of cached lookups is run on a new renderer, every
    lookup returns and the cache holds at most [cache_max_size] entries at
    the end, hence after every lookup of the sequence; in test4_optimized.py
    (bound 10000) and in test4_optimized_v2.py (bound 2000). *)
Theorem cache_never_exceeds_bound (pnoise3 : Q -> Q -> Q -> Q)
  (width height : Z) (coords : list Coordinate3) :
  (exists vs self,
     V1.lookups pnoise3 (V1.init width height) coords = Py.Ok (vs, self)
     /\ Dict.len (V1.noise_cache self) <= V1.cache_max_size self
     /\ V1.cache_max_size self = 10000)
  /\
  (exists vs self,
     V2.lookups pnoise3 (V2.init width height) coords = Py.Ok (vs, self)
     /\ Dict.len (V2.noise_cache self) <= V2.cache_max_size self
     /\ V2.cache_max_size self = 2000).
Proof.
  split.
  - destruct (CacheFacts.lookups_ok pnoise3 coords (V1.init width height)
                (CacheFacts.init_cache_ok width height))
      as (vs & self & Hrun & (_ & Hlen & _) & Hmax).
    now exists vs, self.
  - destruct (CacheFactsV2.lookups_ok_v2 pnoise3 coords
                (V2.init width height)
                (CacheFactsV2.init_cache_ok_v2 width height))
      as (vs & self & Hrun & (_ & _ & Hlen & _) & Hmax).
    now exists vs, self.
Qed.


(** C4.  On a miss with the cache at [cache_max_size], the lookup returns,
    and the cache it leaves is the old one without its first
    [cache_max_size // 5] entries (test4_optimized.py; [// 2] in
    test4_optimized_v2.py), which are the oldest in insertion order, with
    the new key stored last: that many entries are removed and no other. *)
Theorem full_cache_miss_evicts_oldest_batch (pnoise3 : Q -> Q -> Q -> Q)
  (x y z : Q) :
  (forall self : V1.t,
     V1.cache_ok self ->
     Dict.len (V1.noise_cache self) = V1.cache_max_size self ->
     Dict.contains Key_eqb (V1.noise_cache self) (V1.cache_key x y z)
     = false ->
     exists evicted kept self',
       V1.noise_cache self = evicted ++ kept
       /\ Dict.len evicted = V1.cache_max_size self / 5
       /\ V1.get_noise_cached pnoise3 self x y z
          = Py.Ok (pnoise3 x y z, self')
       /\ V1.noise_cache self'
          = kept ++ [(V1.cache_key x y z, pnoise3 x y z)])
  /\
  (forall self : V2.t,
     V2.cache_ok self ->
     Dict.len (V2.noise_cache self) = V2.cache_max_size self ->
     Dict.contains Key_eqb (V2.noise_cache self) (V2.cache_key x y z)
     = false ->
     exists evicted kept self',
       V2.noise_cache self = evicted ++ kept
       /\ Dict.len evicted = V2.cache_max_size self / 2
       /\ V2.get_noise_optimized pnoise3 self x y z
          = Py.Ok (pnoise3 x y z, self')
       /\ V2.noise_cache self'
          = kept ++ [(V2.cache_key x y z, pnoise3 x y z)]).
Proof.
  split; intros self Hok Hfull Hk.
  - exists (firstn (Z.to_nat (V1.cache_max_size self / 5))
              (V1.noise_cache self)),
           (skipn (Z.to_nat (V1.cache_max_size self / 5))
              (V1.noise_cache self)).
    eexists. split; [now rewrite firstn_skipn|].
    rewrite (CacheFacts.get_noise_cached_miss pnoise3 self x y z Hok Hk).
    destruct Hok as (_ & _ & Hmax).
    assert (0 <= V1.cache_max_size self / 5) by (apply Z.div_pos; lia).
    assert (V1.cache_max_size self / 5 <= V1.cache_max_size self)
      by (apply Z.div_le_upper_bound; lia).
    split; [|split; [reflexivity|]].
    + unfold Dict.len in *. rewrite length_firstn. lia.
    + cbn [V1.noise_cache V1.set_noise_cache]. unfold V1.after_miss.
      rewrite Hfull.
      replace (V1.cache_max_size self >=? V1.cache_max_size self) with true
        by (symmetry; apply Z.geb_le; lia).
      reflexivity.
  - exists (firstn (Z.to_nat (V2.cache_max_size self / 2))
              (V2.noise_cache self)),
           (skipn (Z.to_nat (V2.cache_max_size self / 2))
              (V2.noise_cache self)).
    eexists. split; [now rewrite firstn_skipn|].
    rewrite (CacheFactsV2.get_noise_optimized_miss pnoise3 self x y z Hok Hk).
    destruct Hok as (_ & _ & _ & Hmax).
    assert (0 <= V2.cache_max_size self / 2) by (apply Z.div_pos; lia).
    assert (V2.cache_max_size self / 2 <= V2.cache_max_size self)
      by (apply Z.div_le_upper_bound; lia).
    split; [|split; [reflexivity|]].
    + unfold Dict.len in *. rewrite length_firstn. lia.
    + cbn [V2.noise_cache V2.set_noise_cache]. unfold V2.after_miss.
      rewrite Hfull.
      replace (V2.cache_max_size self >=? V2.cache_max_size self) with true
        by (symmetry; apply Z.geb_le; lia).
      reflexivity.
Qed.

(* ================================================================== *)
(** * The intensity of a cell                                          *)
(* ================================================================== *)

(** test4_optimized.py clamps at both ends. *)
Lemma optimized_intensity_in_range (noiseval mx b : Q) :
  0 <= Z.min (Z.max (Py.trunc (noiseval * mx + b)) 0) 255 <= 255.
Proof. lia. Qed.

(** test4_optimized_v2.py clamps at both ends. *)
Lemma v2_intensity_in_range (val : Z) :
  0 <= (if val <? 0 then 0 else if val >? 255 then 255 else val) <= 255.
Proof. destruct (val <? 0) eqn:A; [lia|]. destruct (val >? 255) eqn:B; lia. Qed.

(** test4.py clamps from above, *)
Lemma test4_intensity_upper (noiseval mx b : Q) (maxval : Z) :
  (Test4.intensity noiseval mx b maxval <= inject_Z maxval)%Q.
Proof.
  unfold Test4.intensity, Py.gt, Py.lt.
  destruct (Qle_bool (noiseval * mx + b) (inject_Z maxval)) eqn:E; cbn.
  - now apply Qle_bool_iff.
  - apply Qle_refl.
Qed.

(** and leaves a value that is not above [maxval] as it is. *)
Lemma test4_intensity_unclamped (noiseval mx b : Q) (maxval : Z) :
  (noiseval * mx + b <= inject_Z maxval)%Q ->
  Test4.intensity noiseval mx b maxval = (noiseval * mx + b)%Q.
Proof.
  intros H. unfold Test4.intensity, Py.gt, Py.lt.
  apply Qle_bool_iff in H. now rewrite H.
Qed.

(** C1, on test4.py.  A terminal of two rows and one column; the first
    frame samples -0.2, and [mx], [b] are recalibrated to 1275 and 255; the
    second frame samples -0.5: the intensity is -382.5, below 0, and the
    row written is [ESC[48;2;-382;637;2m ]. *)
Theorem test4_intensity_below_zero :
  exists g1 g2 : Test4.State,
    Test4.frame dipping_noise (Test4.initial 2 1) (quiet_input 2 1)
    = Py.Done g1
    /\ Test4.frame dipping_noise g1 (quiet_input 2 1) = Py.Done g2
    /\ (Test4.intensity (- (1 # 2)) (mx g1) (b g1) (maxval g1)
        == - (765 # 2))%Q
    /\ rows_written g2 = [rgb_token (-382) 637 2].
Proof.
  eexists. eexists.
  split; [vm_compute; reflexivity|].
  split; [vm_compute; reflexivity|].
  split; reflexivity.
Qed.

(* ================================================================== *)
(** * The velocities at the centre of the terminal                     *)
(* ================================================================== *)

Lemma mxplusb_centre (size position : Z) :
  0 < size ->
  (inject_Z position == inject_Z size / 2)%Q ->
  exists m c,
    mxplusb (-1) 0 1 (inject_Z size) = Py.Ok (m, c)
    /\ (inject_Z position * m + c == 0)%Q.
Proof.
  intros Hs Hp. unfold mxplusb, Py.div.
  assert (Hne : ~ (inject_Z size - 0 == 0)%Q).
  { unfold Qeq, Qminus, Qplus, Qopp, inject_Z; cbn. lia. }
  destruct (Qeq_bool (inject_Z size - 0) 0) eqn:E.
  - apply Qeq_bool_iff in E. contradiction.
  - eexists. eexists. split; [reflexivity|].
    rewrite Hp. field. intros H. apply Hne. rewrite H. reflexivity.
Qed.

(** C7, in exact arithmetic.  With a screen of positive width and height and
    the mouse at [width/2], [height/2], the velocities that the main loop
    computes are 0: through [mxplusb(-1, 0, 1, width)] in test4.py and
    test4_optimized.py, and through [(mousex - xcentre) * 0.001] in
    test4_optimized_v2.py. *)
Theorem velocity_zero_at_centre (w h col row : Z) :
  0 < w -> 0 < h ->
  (inject_Z col == inject_Z w / 2)%Q ->
  (inject_Z row == inject_Z h / 2)%Q ->
  (forall g : Test4.State,
     width g = w -> height g = h -> mousex g = col -> mousey g = row ->
     exists g',
       Test4.update_velocity g = Py.Done g'
       /\ (xvelocity g' == 0)%Q /\ (yvelocity g' == 0)%Q)
  /\
  (forall g : Test4Optimized.State,
     width g = w -> height g = h -> mousex g = col -> mousey g = row ->
     exists g',
       Test4Optimized.update_velocity g = Py.Done g'
       /\ (xvelocity g' == 0)%Q /\ (yvelocity g' == 0)%Q)
  /\
  (forall g : Test4OptimizedV2.State,
     width g = w -> height g = h -> mousex g = col -> mousey g = row ->
     (xvelocity (Test4OptimizedV2.update_velocity g) == 0)%Q
     /\ (yvelocity (Test4OptimizedV2.update_velocity g) == 0)%Q).
Proof.
  intros Hw Hh Hcol Hrow.
  destruct (mxplusb_centre w col Hw Hcol) as (mx1 & c1 & Ex & Hx).
  destruct (mxplusb_centre h row Hh Hrow) as (my1 & c2 & Ey & Hy).
  split; [|split]; intros g <- <- <- <-.
  - unfold Test4.update_velocity. rewrite Ex. cbn -[Qplus Qmult].
    rewrite Ey. cbn -[Qplus Qmult]. eexists. split; [reflexivity|].
    cbn -[Qplus Qmult]. now split.
  - unfold Test4Optimized.update_velocity. rewrite Ex. cbn -[Qplus Qmult].
    rewrite Ey. cbn -[Qplus Qmult]. eexists. split; [reflexivity|].
    cbn -[Qplus Qmult]. now split.
  - unfold Test4OptimizedV2.update_velocity.
    cbn -[Qplus Qmult Qminus Qdiv]. rewrite Hcol, Hrow. split; ring.
Qed.

Lemma velocity_zero_at_centre_witness :
  exists g' : Test4.State,
    Test4.update_velocity
      (set_mousey (set_mousex (Test4.initial 23 80) 40) 11)
    = Py.Done g'
    /\ (xvelocity g' == 0)%Q /\ (yvelocity g' == 0)%Q.
Proof.
  apply (proj1 (velocity_zero_at_centre 80 22 40 11 eq_refl eq_refl eq_refl
                  eq_refl));
    reflexivity.
Defined.

(** C7, on binary64 numbers.  On a screen 98 columns wide with the mouse in
    column 49, [mxplusb(-1, 0, 1, 98)] and [49 * Xmx + Xb] leave
    [-1.1102230246251565e-16], which is not 0; on 80 columns the result is
    0, and so is the one of test4_optimized_v2.py's formula at both
    widths. *)
Lemma velocity_at_centre_binary64 :
  (exists v,
     Binary64.velocity 98 49 = Py.Ok v
     /\ PrimFloat.eqb v (Binary64.of_int 0) = false
     /\ PrimFloat.ltb v (Binary64.of_int 0) = true)
  /\ Binary64.velocity 80 40 = Py.Ok (Binary64.of_int 0)
  /\ PrimFloat.eqb (Binary64.velocity_v2 98 49) (Binary64.of_int 0) = true
  /\ PrimFloat.eqb (Binary64.velocity_v2 80 40) (Binary64.of_int 0) = true.
Proof.
  split; [eexists; split; [vm_compute; reflexivity|split; reflexivity]|].
  repeat split; reflexivity.
Qed.

(** On binary64 numbers the velocity at the centre is 0 or [-2**-53] for
    every even width up to 1000: zero up to one rounding. *)
Lemma velocity_at_centre_binary64_residue :
  Binary64.centre_residues 500 = true.
Proof. vm_compute. reflexivity. Qed.

(* ================================================================== *)
(** * The mouse decoder                                                *)
(* ================================================================== *)







Section DecoderOptimized.

Import Test4Optimized.




End DecoderOptimized.

(** test4.py has no gate on the number of fields: on the chunk of the
    example it ends normally with the records Move{10,5}, WheelUp,
    Unrecognized, the wheel report of one field moving [zvelocity] and the
    last segment written to the log file. *)
Lemma test4_decodes_example :
  exists g' : Test4.State,
    Test4.parse_instream (Test4.initial 24 80) example_chunk = Py.Done g'
    /\ mousex g' = 10 /\ mousey g' = 5
    /\ (zvelocity g' == zvelocity (Test4.initial 24 80) + (1 # 100))%Q
    /\ events g' = [Move 10 5; WheelUp; Unrecognized ["garbage"%string]]
    /\ fh g' = fh (Test4.initial 24 80) ++ [("garbage" ++ Py.nl)%string].
Proof.
  eexists. split; [vm_compute; reflexivity|].
  repeat (split; [reflexivity|]). reflexivity.
Qed.




(* ================================================================== *)
(** * [minfound] and [maxfound] in the optimized programs              *)
(* ================================================================== *)

Lemma mxplusb_equal_points (exp1 act1 exp2 act2 : Q) :
  (act2 == act1)%Q ->
  mxplusb exp1 act1 exp2 act2 = Py.Raise Py.ZeroDivisionError.
Proof.
  intros H. unfold mxplusb, Py.div.
  assert (E : Qeq_bool (act2 - act1) 0 = true)
    by (apply Qeq_bool_iff; rewrite H; ring).
  now rewrite E.
Qed.

Lemma for_each_invariant {S A : Type} (P : S -> Prop)
  (body : S -> A -> Py.Outcome S) :
  (forall s a, P s -> P (Py.state_of (body s a))) ->
  forall l s, P s -> P (Py.state_of (for_each body l s)).
Proof.
  intros Hbody. induction l as [|a l IH]; intros s Hs; [exact Hs|].
  cbn [for_each]. specialize (Hbody s a Hs).
  destruct (body s a); cbn [Py.seq Py.state_of] in *; auto.
Qed.

(** The case analysis of a statement: every [match] on a result, an
    outcome or a test is split, the innermost first. *)
Ltac split_outcomes :=
  repeat match goal with
         | |- context [match ?x with _ => _ end] =>
             lazymatch x with
             | context [match _ with _ => _ end] => fail
             | _ => destruct x; cbn
             end
         end.

Section TrackersOptimized.

Import Test4Optimized.
Variable pnoise3 : Q -> Q -> Q -> Q.

Lemma parse_instream_keeps_trackers (g : State) (instream : string) :
  minfound (Py.state_of (parse_instream g instream)) = minfound g
  /\ maxfound (Py.state_of (parse_instream g instream)) = maxfound g.
Proof.
  unfold parse_instream. destruct (String.eqb instream ""); [now split|].
  apply (for_each_invariant
           (fun s => minfound s = minfound g /\ maxfound s = maxfound g));
    [|now split].
  intros s entry Hs. unfold parse_entry, parse_fields, Py.try_except.
  unfold Py.eval, Py.bind. split_outcomes; exact Hs.
Qed.

(** Nothing in an iteration before the recalibration assigns [minfound]
    or [maxfound]. *)
Lemma frame_body_keeps_trackers (g : State) (inp : FrameInput) :
  minfound (Py.state_of (frame_body pnoise3 g inp)) = minfound g
  /\ maxfound (Py.state_of (frame_body pnoise3 g inp)) = maxfound g.
Proof.
  unfold frame_body.
  set (g0 := check_size (set_framecount g (framecount g + 1)) inp).
  assert (H0 : minfound g0 = minfound g /\ maxfound g0 = maxfound g).
  { unfold g0, check_size. split_outcomes; now split. }
  destruct H0 as [C D].
  destruct (parse_instream_keeps_trackers g0 (stdin inp)) as [A B].
  destruct (parse_instream g0 (stdin inp)) as [g1|g1|e g1];
    cbn [Py.seq Py.state_of] in *; try (split; congruence).
  destruct (getch inp =? ord_q); cbn [Py.state_of]; [split; congruence|].
  unfold update_velocity, render, Py.eval.
  split_outcomes; split; congruence.
Qed.

Lemma recalibrate_keeps_trackers (g : State) :
  minfound (Py.state_of (recalibrate g)) = minfound g
  /\ maxfound (Py.state_of (recalibrate g)) = maxfound g.
Proof. unfold recalibrate, Py.eval. split_outcomes; now split. Qed.

Lemma reachable_trackers (g : State) :
  reachable pnoise3 g -> minfound g = 0%Q /\ maxfound g = 0%Q.
Proof.
  induction 1 as [rows cols|g inp g' Hg IH Hf]; [now split|].
  unfold frame in Hf.
  pose proof (frame_body_keeps_trackers g inp) as Hb.
  destruct (frame_body pnoise3 g inp) as [g1|g1|e g1];
    cbn [Py.seq Py.state_of] in *; try discriminate.
  pose proof (recalibrate_keeps_trackers g1) as Hr.
  rewrite Hf in Hr. cbn [Py.state_of] in Hr.
  destruct IH, Hb, Hr. split; congruence.
Qed.

Lemma recalibrate_raises (g : State) :
  minfound g = 0%Q -> maxfound g = 0%Q -> framecount g mod 10 = 0 ->
  recalibrate g = Py.Raised Py.ZeroDivisionError g.
Proof.
  intros Hmin Hmax Hc. unfold recalibrate.
  rewrite Hc, Hmin, Hmax. reflexivity.
Qed.

Lemma frames_reachable (n : nat) (inp : FrameInput) (g g' : State) :
  reachable pnoise3 g -> frames pnoise3 n g inp = Py.Done g' ->
  reachable pnoise3 g'.
Proof.
  revert g. induction n as [|n IH]; intros g Hg Hrun.
  - cbn in Hrun. now injection Hrun as <-.
  - cbn [frames] in Hrun.
    destruct (frame pnoise3 g inp) as [g1|g1|e g1] eqn:Hf;
      cbn [Py.seq] in Hrun; try discriminate.
    apply (IH g1); [|exact Hrun]. now apply (reachable_frame _ g inp).
Qed.

End TrackersOptimized.

Section TrackersV2.
Import Test4OptimizedV2.
Variable pnoise3 : Q -> Q -> Q -> Q.

Lemma parse_instream_keeps_trackers_v2 (g : State) (instream : string) :
  minfound (Py.state_of (parse_instream g instream)) = minfound g
  /\ maxfound (Py.state_of (parse_instream g instream)) = maxfound g.
Proof.
  unfold parse_instream. destruct (String.eqb instream ""); [now split|].
  apply (for_each_invariant
           (fun s => minfound s = minfound g /\ maxfound s = maxfound g));
    [|now split].
  intros s part Hs. unfold parse_part, parse_elements, Py.try_except.
  unfold Py.eval, Py.bind. split_outcomes; exact Hs.
Qed.

Lemma frame_body_keeps_trackers_v2 (g : State) (inp : FrameInput) :
  minfound (Py.state_of (frame_body pnoise3 g inp)) = minfound g
  /\ maxfound (Py.state_of (frame_body pnoise3 g inp)) = maxfound g.
Proof.
  unfold frame_body.
  set (g0 := check_size (set_framecount g (framecount g + 1)) inp).
  assert (H0 : minfound g0 = minfound g /\ maxfound g0 = maxfound g).
  { unfold g0, check_size. split_outcomes; now split. }
  destruct H0 as [C D].
  destruct (parse_instream_keeps_trackers_v2 g0 (stdin inp)) as [A B].
  destruct (parse_instream g0 (stdin inp)) as [g1|g1|e g1];
    cbn [Py.seq Py.state_of] in *; try (split; congruence).
  destruct (getch inp =? ord_q); cbn [Py.state_of]; [split; congruence|].
  unfold update_velocity, render, Py.eval.
  split_outcomes; split; congruence.
Qed.

Lemma recalibrate_keeps_trackers_v2 (g : State) :
  minfound (Py.state_of (recalibrate g)) = minfound g
  /\ maxfound (Py.state_of (recalibrate g)) = maxfound g.
Proof. unfold recalibrate, Py.eval. split_outcomes; now split. Qed.

Lemma reachable_trackers_v2 (g : State) :
  reachable pnoise3 g -> minfound g = 0%Q /\ maxfound g = 0%Q.
Proof.
  induction 1 as [rows cols|g inp g' Hg IH Hf]; [now split|].
  unfold frame in Hf.
  pose proof (frame_body_keeps_trackers_v2 g inp) as Hb.
  destruct (frame_body pnoise3 g inp) as [g1|g1|e g1];
    cbn [Py.seq Py.state_of] in *; try discriminate.
  pose proof (recalibrate_keeps_trackers_v2 g1) as Hr.
  rewrite Hf in Hr. cbn [Py.state_of] in Hr.
  destruct IH, Hb, Hr. split; congruence.
Qed.

Lemma recalibrate_raises_v2 (g : State) :
  minfound g = 0%Q -> maxfound g = 0%Q -> framecount g mod 10 = 0 ->
  recalibrate g = Py.Raised Py.ZeroDivisionError g.
Proof.
  intros Hmin Hmax Hc. unfold recalibrate.
  rewrite Hc, Hmin, Hmax. reflexivity.
Qed.

End TrackersV2.

(** C9.  [mxplusb] raises [ZeroDivisionError] when [act2 == act1].  In
    test4_optimized.py and in test4_optimized_v2.py [minfound] and
    [maxfound] are 0.0 at the top of every iteration, and an iteration that
    comes to the recalibration with [framecount % 10 == 0] raises
    [ZeroDivisionError] there. *)
Theorem recalibration_divides_by_zero (pnoise3 : Q -> Q -> Q -> Q) :
  (forall exp1 act1 exp2 act2 : Q,
     (act2 == act1)%Q ->
     mxplusb exp1 act1 exp2 act2 = Py.Raise Py.ZeroDivisionError)
  /\
  (forall (g : Test4Optimized.State) (inp : FrameInput)
          (g1 : Test4Optimized.State),
     Test4Optimized.reachable pnoise3 g ->
     Test4Optimized.frame_body pnoise3 g inp = Py.Done g1 ->
     framecount g1 mod 10 = 0 ->
     minfound g1 = 0%Q /\ maxfound g1 = 0%Q
     /\ Test4Optimized.frame pnoise3 g inp
        = Py.Raised Py.ZeroDivisionError g1)
  /\
  (forall (g : Test4OptimizedV2.State) (inp : FrameInput)
          (g1 : Test4OptimizedV2.State),
     Test4OptimizedV2.reachable pnoise3 g ->
     Test4OptimizedV2.frame_body pnoise3 g inp = Py.Done g1 ->
     framecount g1 mod 10 = 0 ->
     minfound g1 = 0%Q /\ maxfound g1 = 0%Q
     /\ Test4OptimizedV2.frame pnoise3 g inp
        = Py.Raised Py.ZeroDivisionError g1).
Proof.
  split; [exact mxplusb_equal_points|]. split.
  - intros g inp g1 Hg Hb Hc.
    destruct (reachable_trackers pnoise3 g Hg) as [Hmin Hmax].
    destruct (frame_body_keeps_trackers pnoise3 g inp) as [A B].
    rewrite Hb in A, B. cbn [Py.state_of] in A, B.
    assert (Hmin1 : minfound g1 = 0%Q) by congruence.
    assert (Hmax1 : maxfound g1 = 0%Q) by congruence.
    split; [exact Hmin1|]. split; [exact Hmax1|].
    unfold Test4Optimized.frame. rewrite Hb. cbn [Py.seq].
    now apply recalibrate_raises.
  - intros g inp g1 Hg Hb Hc.
    destruct (reachable_trackers_v2 pnoise3 g Hg) as [Hmin Hmax].
    destruct (frame_body_keeps_trackers_v2 pnoise3 g inp) as [A B].
    rewrite Hb in A, B. cbn [Py.state_of] in A, B.
    assert (Hmin1 : minfound g1 = 0%Q) by congruence.
    assert (Hmax1 : maxfound g1 = 0%Q) by congruence.
    split; [exact Hmin1|]. split; [exact Hmax1|].
    unfold Test4OptimizedV2.frame. rewrite Hb. cbn [Py.seq].
    now apply recalibrate_raises_v2.
Qed.

(** On a terminal of two rows and one column, nine iterations of
    test4_optimized.py end normally and the tenth raises. *)
Lemma recalibration_divides_by_zero_witness :
  exists g9 g10 : Test4Optimized.State,
    Test4Optimized.frames (constant_noise 0) 9 (Test4Optimized.initial 2 1)
      (quiet_input 2 1) = Py.Done g9
    /\ minfound g10 = 0%Q /\ maxfound g10 = 0%Q
    /\ Test4Optimized.frame (constant_noise 0) g9 (quiet_input 2 1)
       = Py.Raised Py.ZeroDivisionError g10.
Proof.
  eexists. eexists. split; [vm_compute; reflexivity|].
  apply (proj1 (proj2 (recalibration_divides_by_zero (constant_noise 0)))).
  - apply (frames_reachable (constant_noise 0) 9 (quiet_input 2 1)
             (Test4Optimized.initial 2 1));
      [apply Test4Optimized.reachable_initial|vm_compute; reflexivity].
  - vm_compute. reflexivity.
  - reflexivity.
Defined.

(** C6, on the optimized programs.  On a terminal of two rows and one
    column with a noise source that is -0.5 everywhere, the first iteration
    of test4_optimized.py and of test4_optimized_v2.py samples [pnoise3]
    once, and leaves [minfound] and [maxfound] at 0.0: the sample is below
    [minfound]. *)
Theorem optimized_trackers_miss_samples :
  (exists g1 : Test4Optimized.State,
     Test4Optimized.frame (constant_noise (- (1 # 2)))
       (Test4Optimized.initial 2 1) (quiet_input 2 1) = Py.Done g1
     /\ List.length
          (Test4Optimized.NoiseRenderer.noise_calls (renderer g1)) = 1%nat
     /\ minfound g1 = 0%Q /\ maxfound g1 = 0%Q
     /\ Py.lt (constant_noise (- (1 # 2)) 0 0 0) (minfound g1) = true)
  /\
  (exists g1 : Test4OptimizedV2.State,
     Test4OptimizedV2.frame (constant_noise (- (1 # 2)))
       (Test4OptimizedV2.initial 2 1) (quiet_input 2 1) = Py.Done g1
     /\ List.length
          (Test4OptimizedV2.OptimizedNoiseRenderer.noise_calls (renderer g1))
        = 1%nat
     /\ minfound g1 = 0%Q /\ maxfound g1 = 0%Q
     /\ Py.lt (constant_noise (- (1 # 2)) 0 0 0) (minfound g1) = true).
Proof.
  split; eexists; (split; [vm_compute; reflexivity|]);
    repeat split; reflexivity.
Qed.

(* ================================================================== *)
(** * The frame of test4_optimized.py                                   *)
(* ================================================================== *)

(** [str] of an integer from 0 to 255 is a decimal without leading zeros:
    checked on the 256 integers. *)
Lemma str_is_byte_decimal (n : Z) :
  0 <= n <= 255 -> is_byte_decimal (Py.str n) = true.
Proof.
  intros Hn.
  assert (Hall : forallb (fun k => is_byte_decimal (Py.str (Z.of_nat k)))
                   (List.seq 0 256) = true) by (vm_compute; reflexivity).
  rewrite forallb_forall in Hall.
  rewrite <- (Z2Nat.id n) by lia. apply Hall, in_seq. lia.
Qed.

Lemma rgb_token_is_color_token (r g b_color : Z) :
  0 <= r <= 255 -> 0 <= g <= 255 -> 0 <= b_color <= 255 ->
  is_color_token (rgb_token r g b_color).
Proof.
  intros Hr Hg Hb. exists (Py.str r), (Py.str g), (Py.str b_color).
  split; [reflexivity|]. now rewrite !str_is_byte_decimal.
Qed.

Section DictIncluded.

Context {K V : Type}.
Variable eqb : K -> K -> bool.

Lemma included_refl (d : list (K * V)) : Dict.included eqb d d.
Proof. intros k v H. exact H. Qed.

Lemma included_trans (d1 d2 d3 : list (K * V)) :
  Dict.included eqb d1 d2 -> Dict.included eqb d2 d3 ->
  Dict.included eqb d1 d3.
Proof. intros A B k v H. apply B, A, H. Qed.

Lemma included_app (d d' : list (K * V)) : Dict.included eqb d (d ++ d').
Proof. intros k v H. now apply get_app_present. Qed.

End DictIncluded.

Section Frame.
Import Test4Optimized.NoiseRenderer.
Variable pnoise3 : Q -> Q -> Q -> Q.
Variables xoffset yoffset zoffset mx b : Q.
Variable framecount : Z.

(** A lookup in a cache that is not full: nothing is evicted, the value
    returned is in the cache afterwards, and a renderer whose cache
    includes that cache returns the same value from its cache. *)
Lemma get_noise_cached_no_eviction (self : t) (x y z : Q) :
  cache_ok self ->
  Dict.len (noise_cache self) < cache_max_size self ->
  exists v self',
    get_noise_cached pnoise3 self x y z = Py.Ok (v, self')
    /\ cache_ok self'
    /\ buffers self' = buffers self
    /\ Dict.included Key_eqb (noise_cache self) (noise_cache self')
    /\ Dict.len (noise_cache self') <= Dict.len (noise_cache self) + 1
    /\ (forall s : t,
          Dict.included Key_eqb (noise_cache self') (noise_cache s) ->
          get_noise_cached pnoise3 s x y z = Py.Ok (v, s)).
Proof.
  intros Hok Hlen.
  destruct (Dict.contains Key_eqb (noise_cache self) (cache_key x y z))
    eqn:Hk.
  - destruct (contains_get _ _ _ Hk) as [v Hv]. exists v, self.
    split; [now apply CacheFacts.get_noise_cached_hit|].
    split; [exact Hok|]. split; [reflexivity|].
    split; [apply included_refl|]. split; [lia|].
    intros s Hs. apply CacheFacts.get_noise_cached_hit. now apply Hs.
  - exists (pnoise3 x y z). eexists.
    split; [now apply CacheFacts.get_noise_cached_miss|].
    assert (Hmiss : after_miss pnoise3 self x y z
                    = noise_cache self
                      ++ [(cache_key x y z, pnoise3 x y z)]).
    { unfold after_miss.
      replace (Dict.len (noise_cache self) >=? cache_max_size self)
        with false; [reflexivity|].
      symmetry. rewrite Z.geb_leb. apply Z.leb_gt. lia. }
    cbn [noise_cache set_noise_cache]. rewrite Hmiss.
    split; [|split; [reflexivity|split; [apply included_app|split]]].
    + destruct Hok as (Hd & Hl & Hm). unfold cache_ok.
      cbn [noise_cache cache_max_size set_noise_cache log_noise_call].
      split; [now apply (distinct_keys_app_new Key_eqb Key_eqb_sym)|].
      split; [|exact Hm]. unfold Dict.len in *. rewrite length_app. cbn.
      lia.
    + unfold Dict.len. rewrite length_app. cbn. lia.
    + intros s Hs. apply CacheFacts.get_noise_cached_hit. apply Hs.
      apply (get_absent_app Key_eqb Key_eqb_refl Key_eqb_sym Key_eqb_trans);
        [exact Hk|apply Key_eqb_refl].
Qed.




Lemma length_range (n : Z) : List.length (Py.range n) = Z.to_nat n.
Proof. unfold Py.range. now rewrite length_map, length_seq. Qed.





End Frame.


(* ================================================================== *)
(** * Lookups of one key that are not next to each other               *)
(* ================================================================== *)

Section LookupsApart.

Import Test4Optimized.NoiseRenderer.
Variable pnoise3 : Q -> Q -> Q -> Q.

(** The value a lookup returns is the one its key has in the cache
    afterwards. *)
Lemma get_noise_cached_stores (self self' : t) (x y z v : Q) :
  cache_ok self ->
  get_noise_cached pnoise3 self x y z = Py.Ok (v, self') ->
  Dict.get Key_eqb (noise_cache self') (cache_key x y z) = Some v.
Proof.
  intros Hok Hget.
  destruct (Dict.contains Key_eqb (noise_cache self) (cache_key x y z))
    eqn:Hk.
  - destruct (contains_get _ _ _ Hk) as [v0 Hv].
    rewrite (CacheFacts.get_noise_cached_hit pnoise3 self x y z v0 Hv)
      in Hget.
    injection Hget as <- <-. exact Hv.
  - rewrite (CacheFacts.get_noise_cached_miss pnoise3 self x y z Hok Hk)
      in Hget.
    injection Hget as <- <-. cbn [noise_cache set_noise_cache].
    unfold after_miss.
    apply (get_absent_app Key_eqb Key_eqb_refl Key_eqb_sym Key_eqb_trans);
      [|apply Key_eqb_refl].
    destruct (Dict.len (noise_cache self) >=? cache_max_size self);
      [now apply contains_skipn | assumption].
Qed.

(** Lookups that leave the cache below its bound evict nothing. *)
Lemma lookups_no_eviction (coords : list Coordinate3) :
  forall self : t,
    cache_ok self ->
    Dict.len (noise_cache self) + Z.of_nat (List.length coords)
    <= cache_max_size self ->
    exists vs self',
      lookups pnoise3 self coords = Py.Ok (vs, self')
      /\ cache_ok self'
      /\ Dict.included Key_eqb (noise_cache self) (noise_cache self').
Proof.
  induction coords as [|[[x y] z] coords IH]; intros self Hok Hlen.
  - exists [], self. split; [reflexivity|].
    split; [exact Hok|apply included_refl].
  - cbn [List.length] in Hlen.
    destruct (get_noise_cached_no_eviction pnoise3 self x y z Hok)
      as (v & self1 & Hget & Hok1 & Hbuf & Hinc1 & Hlen1 & _); [lia|].
    assert (Hmax : cache_max_size self1 = cache_max_size self)
      by (unfold buffers in Hbuf; congruence).
    destruct (IH self1 Hok1) as (vs & self2 & Hrun & Hok2 & Hinc2); [lia|].
    exists (v :: vs), self2. cbn [lookups]. rewrite Hget. cbn [Py.bind].
    rewrite Hrun. cbn [Py.bind]. split; [reflexivity|].
    split; [exact Hok2|eapply included_trans; eassumption].
Qed.

(** Two lookups at positions that round to the same key, with lookups
    between them that leave the cache below its bound: the second returns
    the value of the first, and [pnoise3] is not called for it. *)
Lemma same_key_after_lookups (self self1 : t) (x1 y1 z1 x2 y2 z2 v : Q)
  (coords : list Coordinate3) :
  cache_ok self ->
  get_noise_cached pnoise3 self x1 y1 z1 = Py.Ok (v, self1) ->
  Dict.len (noise_cache self1) + Z.of_nat (List.length coords)
  <= cache_max_size self1 ->
  Key_eqb (cache_key x1 y1 z1) (cache_key x2 y2 z2) = true ->
  exists vs self2,
    lookups pnoise3 self1 coords = Py.Ok (vs, self2)
    /\ get_noise_cached pnoise3 self2 x2 y2 z2 = Py.Ok (v, self2).
Proof.
  intros Hok Hget Hlen Hkey.
  pose proof (get_noise_cached_stores self self1 x1 y1 z1 v Hok Hget) as Hv.
  destruct (CacheFacts.get_noise_cached_ok pnoise3 self x1 y1 z1 Hok)
    as (v' & self1' & Hget' & Hok1 & _).
  rewrite Hget in Hget'. injection Hget' as <- <-.
  destruct (lookups_no_eviction coords self1 Hok1 Hlen)
    as (vs & self2 & Hrun & Hok2 & Hinc).
  exists vs, self2. split; [exact Hrun|].
  apply CacheFacts.get_noise_cached_hit.
  rewrite <- (get_congr Key_eqb Key_eqb_sym Key_eqb_trans _ _ _ Hkey).
  now apply Hinc.
Qed.

End LookupsApart.

(** When the key has been evicted between the two lookups the value is
    computed again, at the position of the later lookup.  In the full cache
    of five entries the key of (0, 0, 0) is the oldest: the lookup at
    (0, 0, 0) returns the stored 0, the miss at (5, 0, 0) evicts that key,
    and the lookup at (0.001, 0, 0), which rounds to the same key, calls
    [pnoise3] and returns 0.001. *)
Example evicted_key_is_computed_again :
  exists self1 self2 self3,
    V1.get_noise_cached first_coordinate_noise full_renderer 0 0 0
    = Py.Ok (0%Q, self1)
    /\ V1.get_noise_cached first_coordinate_noise self1 5 0 0
       = Py.Ok (5%Q, self2)
    /\ Key_eqb (V1.cache_key 0 0 0) (V1.cache_key (1 # 1000) 0 0) = true
    /\ V1.get_noise_cached first_coordinate_noise self2 (1 # 1000) 0 0
       = Py.Ok ((1 # 1000)%Q, self3)
    /\ List.length (V1.noise_calls self3)
       = S (List.length (V1.noise_calls self2)).
Proof.
  eexists. eexists. eexists.
  split; [vm_compute; reflexivity|].
  split; [vm_compute; reflexivity|].
  split; [reflexivity|].
  split; [vm_compute; reflexivity|reflexivity].
Qed.

(* ================================================================== *)
(** * [minfound] and [maxfound] in test4.py                            *)
(* ================================================================== *)

Lemma min_le_both (a c : Q) : (Py.min a c <= a)%Q /\ (Py.min a c <= c)%Q.
Proof.
  unfold Py.min, Py.lt. destruct (Qle_bool a c) eqn:E; cbn.
  - apply Qle_bool_iff in E. split; [apply Qle_refl|exact E].
  - split; [|apply Qle_refl]. apply Qnot_lt_le. intros H.
    apply Qlt_le_weak, Qle_bool_iff in H. congruence.
Qed.

Lemma max_ge_both (a c : Q) : (a <= Py.max a c)%Q /\ (c <= Py.max a c)%Q.
Proof.
  unfold Py.max, Py.gt, Py.lt. destruct (Qle_bool c a) eqn:E; cbn.
  - apply Qle_bool_iff in E. split; [apply Qle_refl|exact E].
  - split; [|apply Qle_refl]. apply Qnot_lt_le. intros H.
    apply Qlt_le_weak, Qle_bool_iff in H. congruence.
Qed.

Section TrackersTest4.

Import Test4.
Variable pnoise3 : Q -> Q -> Q -> Q.

Lemma widened_refl (g : State) : widened g g.
Proof. repeat split; apply Qle_refl. Qed.

Lemma widened_trans (g1 g2 g3 : State) :
  widened g1 g2 -> widened g2 g3 -> widened g1 g3.
Proof.
  intros (A & A1 & A2) (B & B1 & B2).
  split; [congruence|]. split; eapply Qle_trans; eassumption.
Qed.

Lemma widened_sample (g g' : State) (x y : Z) :
  widened g g' -> sample pnoise3 g' x y = sample pnoise3 g x y.
Proof.
  intros (A & _). unfold scene in A. injection A as A1 A2 A3 A4 _.
  unfold sample. now rewrite A1, A2, A3, A4.
Qed.

Lemma widened_cell_token (g g' : State) (x y : Z) :
  widened g g' -> cell_token pnoise3 g' x y = cell_token pnoise3 g x y.
Proof.
  intros Hw. pose proof (widened_sample g g' x y Hw) as Hs.
  destruct Hw as (A & _). unfold scene in A.
  injection A as _ _ _ _ _ _ A7 A8 A9 A10.
  unfold cell_token. now rewrite Hs, A7, A8, A9, A10.
Qed.

(** A cell widens the trackers to its own sample, and appends its
    token. *)
Lemma render_cell_tracks (g : State) (linedata : string) (x y : Z) :
  widened g (fst (render_cell pnoise3 y (g, linedata) x))
  /\ (minfound (fst (render_cell pnoise3 y (g, linedata) x))
      <= sample pnoise3 g x y)%Q
  /\ (sample pnoise3 g x y
      <= maxfound (fst (render_cell pnoise3 y (g, linedata) x)))%Q
  /\ snd (render_cell pnoise3 y (g, linedata) x)
     = (linedata ++ cell_token pnoise3 g x y)%string.
Proof.
  unfold render_cell, sample, cell_token. cbn [fst snd].
  cbn [minfound maxfound set_found].
  split; [|split; [apply min_le_both|split; [apply max_ge_both|reflexivity]]].
  split; [reflexivity|]. split; [apply min_le_both|apply max_ge_both].
Qed.

Lemma append_assoc (s1 s2 s3 : string) :
  ((s1 ++ s2) ++ s3 = s1 ++ (s2 ++ s3))%string.
Proof. induction s1 as [|a s1 IH]; cbn; [reflexivity|now rewrite IH]. Qed.

Lemma append_empty (s1 : string) : (s1 ++ "" = s1)%string.
Proof. induction s1 as [|a s1 IH]; cbn; [reflexivity|now rewrite IH]. Qed.

Lemma render_cells_track (y : Z) (xs : list Z) :
  forall (g : State) (linedata : string),
    widened g (fst (fold_left (render_cell pnoise3 y) xs (g, linedata)))
    /\ (forall x, In x xs ->
          (minfound (fst (fold_left (render_cell pnoise3 y) xs
                            (g, linedata)))
           <= sample pnoise3 g x y
           <= maxfound (fst (fold_left (render_cell pnoise3 y) xs
                               (g, linedata))))%Q)
    /\ snd (fold_left (render_cell pnoise3 y) xs (g, linedata))
       = (linedata
          ++ Py.join (map (fun x => cell_token pnoise3 g x y) xs))%string.
Proof.
  induction xs as [|x xs IH]; intros g linedata.
  - split; [apply widened_refl|]. split; [intros x []|].
    cbn. now rewrite append_empty.
  - cbn [fold_left].
    destruct (render_cell_tracks g linedata x y) as (Hw & Hlo & Hhi & Hl).
    destruct (render_cell pnoise3 y (g, linedata) x) as [g1 l1] eqn:E.
    cbn [fst snd] in Hw, Hlo, Hhi, Hl.
    destruct (IH g1 l1) as (Hw' & Hall & Hl').
    split; [eapply widened_trans; eassumption|]. split.
    + intros x' [<-|Hin].
      * destruct Hw' as (_ & Hmin & Hmax).
        split; eapply Qle_trans; eassumption.
      * rewrite <- (widened_sample g g1 x' y Hw). now apply Hall.
    + rewrite Hl', Hl, append_assoc.
      rewrite (map_ext _ _ (fun x' => widened_cell_token g g1 x' y Hw)).
      reflexivity.
Qed.

Lemma render_row_tracks (g : State) (written : list string) (y : Z) :
  widened g (fst (render_row pnoise3 (g, written) y))
  /\ (forall x, In x (Py.range (width g)) ->
        (minfound (fst (render_row pnoise3 (g, written) y))
         <= sample pnoise3 g x y
         <= maxfound (fst (render_row pnoise3 (g, written) y)))%Q)
  /\ snd (render_row pnoise3 (g, written) y)
     = written
       ++ [Py.join (map (fun x => cell_token pnoise3 g x y)
                      (Py.range (width g)))].
Proof.
  unfold render_row.
  pose proof (render_cells_track y (Py.range (width g)) g EmptyString) as H.
  destruct (fold_left (render_cell pnoise3 y) (Py.range (width g))
              (g, EmptyString)) as [g1 l1].
  cbn [fst snd] in *. destruct H as (Hw & Hall & ->).
  split; [exact Hw|]. split; [exact Hall|reflexivity].
Qed.

Lemma render_rows_track (ys : list Z) :
  forall (g : State) (written : list string),
    widened g (fst (fold_left (render_row pnoise3) ys (g, written)))
    /\ (forall x y, In x (Py.range (width g)) -> In y ys ->
          (minfound (fst (fold_left (render_row pnoise3) ys (g, written)))
           <= sample pnoise3 g x y
           <= maxfound (fst (fold_left (render_row pnoise3) ys
                               (g, written))))%Q)
    /\ snd (fold_left (render_row pnoise3) ys (g, written))
       = written
         ++ map (fun y => Py.join (map (fun x => cell_token pnoise3 g x y)
                                     (Py.range (width g)))) ys.
Proof.
  induction ys as [|y ys IH]; intros g written.
  - split; [apply widened_refl|]. split; [intros x y _ []|].
    cbn. now rewrite app_nil_r.
  - cbn [fold_left].
    destruct (render_row_tracks g written y) as (Hw & Hrow & Hr).
    destruct (render_row pnoise3 (g, written) y) as [g1 w1] eqn:E.
    cbn [fst snd] in Hw, Hrow, Hr.
    destruct (IH g1 w1) as (Hw' & Hall & Hr').
    assert (Hwidth : width g1 = width g).
    { destruct Hw as (A & _). unfold scene in A. now injection A. }
    split; [eapply widened_trans; eassumption|]. split.
    + intros x y' Hx [<-|Hin].
      * destruct Hw' as (_ & Hmin & Hmax).
        destruct (Hrow x Hx) as [Hlo Hhi].
        split; eapply Qle_trans; eassumption.
      * rewrite <- (widened_sample g g1 x y' Hw). apply Hall; [|exact Hin].
        now rewrite Hwidth.
    + rewrite Hr', Hr, <- app_assoc, Hwidth. cbn [map app]. do 2 f_equal.
      apply map_ext. intros y'. f_equal. apply map_ext. intros x.
      now apply widened_cell_token.
Qed.

Lemma in_range (n i : Z) : 0 <= i < n -> In i (Py.range n).
Proof.
  intros H. unfold Py.range. apply in_map_iff. exists (Z.to_nat i).
  split; [lia|]. apply in_seq. lia.
Qed.

(** In test4.py the rows of a frame leave [minfound] at or below, and
    [maxfound] at or above, every noise value sampled by the frame, and
    never narrow them. *)
Lemma test4_trackers_bound_samples (g : State) (x y : Z) :
  0 <= x < width g -> 0 <= y < height g ->
  widened g (fst (render_rows pnoise3 g))
  /\ (minfound (fst (render_rows pnoise3 g)) <= sample pnoise3 g x y
      <= maxfound (fst (render_rows pnoise3 g)))%Q.
Proof.
  intros Hx Hy. unfold render_rows.
  destruct (render_rows_track (Py.range (height g)) g []) as (Hw & Hall & _).
  split; [exact Hw|]. apply Hall; now apply in_range.
Qed.

(** In test4.py the rows written by a frame are a function of the
    variables at its start: as many rows as [height], each the
    concatenation of the tokens of its [width] cells. *)
Lemma test4_rows_are_frame_text (g : State) :
  snd (render_rows pnoise3 g) = frame_text pnoise3 g.
Proof.
  unfold render_rows, frame_text.
  now destruct (render_rows_track (Py.range (height g)) g []) as (_ & _ & ->).
Qed.

End TrackersTest4.

(* ================================================================== *)
(** * The tokens of test4.py                                           *)
(* ================================================================== *)

Lemma trunc_bounds (q : Q) (lo hi : Z) :
  (inject_Z lo <= q)%Q -> (q <= inject_Z hi)%Q -> 0 <= lo ->
  lo <= Py.trunc q <= hi.
Proof.
  intros Hlo Hhi H0. unfold Py.trunc. destruct q as [n d].
  unfold Qle, inject_Z in *. cbn [Qnum Qden] in *.
  assert (0 <= n) by nia.
  rewrite Z.quot_div_nonneg by lia.
  split.
  - apply Z.div_le_lower_bound; lia.
  - apply Z.div_le_upper_bound; lia.
Qed.

(** In test4.py a cell whose noise value is at least -1, mapped with
    [mx = b = 127.5], gives a color token. *)
Lemma test4_token_in_range (noiseval : Q) (framecount : Z) :
  (-1 <= noiseval)%Q ->
  is_color_token
    (Test4.token (Test4.intensity noiseval (255 # 2) (255 # 2) 255)
       framecount).
Proof.
  intros Hn.
  pose proof (test4_intensity_upper noiseval (255 # 2) (255 # 2) 255) as Hup.
  assert (Hlo : (0 <= Test4.intensity noiseval (255 # 2) (255 # 2) 255)%Q).
  { unfold Test4.intensity.
    destruct (Py.gt _ _); [discriminate|].
    setoid_replace 0%Q with (-1 * (255 # 2) + (255 # 2))%Q by ring.
    apply Qplus_le_l, Qmult_le_compat_r; [exact Hn|discriminate]. }
  set (val := Test4.intensity noiseval (255 # 2) (255 # 2) 255) in *.
  unfold Test4.token. apply rgb_token_is_color_token.
  - apply (trunc_bounds val 0 255); [exact Hlo|exact Hup|lia].
  - apply (trunc_bounds (255 - val) 0 255); [| |lia].
    + setoid_replace (inject_Z 0) with (255 - 255)%Q by ring.
      apply Qplus_le_r, Qopp_le_compat. exact Hup.
    + setoid_replace (inject_Z 255) with (255 - 0)%Q by ring.
      apply Qplus_le_r, Qopp_le_compat. exact Hlo.
  - pose proof (Z.mod_pos_bound framecount 255). lia.
Qed.

(** In test4.py, with [mx = b = 127.5] and a noise source that stays at or
    above -1, the frame is [height] rows of [width] color tokens each; and
    it is the same whenever the variables are the same. *)
Lemma test4_frame_rows (pnoise3 : Q -> Q -> Q -> Q) (g : Test4.State) :
  mx g = 255 # 2 -> b g = 255 # 2 -> maxval g = 255 ->
  (forall x y z, (-1 <= pnoise3 x y z)%Q) ->
  snd (Test4.render_rows pnoise3 g) = Test4.frame_text pnoise3 g
  /\ List.length (Test4.frame_text pnoise3 g) = Z.to_nat (height g)
  /\ Forall (is_row (Z.to_nat (width g))) (Test4.frame_text pnoise3 g).
Proof.
  intros Hmx Hb Hmaxval Hnoise.
  split; [apply test4_rows_are_frame_text|]. unfold Test4.frame_text.
  split; [now rewrite length_map, length_range|].
  apply Forall_forall. intros row Hrow. apply in_map_iff in Hrow.
  destruct Hrow as (y & <- & _).
  exists (map (fun x => Test4.cell_token pnoise3 g x y)
            (Py.range (width g))).
  split; [now rewrite length_map, length_range|]. split; [reflexivity|].
  apply Forall_forall. intros tok Htok. apply in_map_iff in Htok.
  destruct Htok as (x & <- & _). unfold Test4.cell_token.
  rewrite Hmx, Hb, Hmaxval. apply test4_token_in_range, Hnoise.
Qed.

(* ================================================================== *)
(** * The cache on concrete lookups                                    *)
(* ================================================================== *)


(** The value stored and returned is the noise at 0.123, the position of
    the first lookup: not at the key 0.12, and not at 0.1249. *)
Example stored_value_is_first_position :
  exists self1,
    V1.get_noise_cached first_coordinate_noise (V1.init 80 23)
      (123 # 1000) 0 0 = Py.Ok (123 # 1000, self1)%Q
    /\ V1.get_noise_cached first_coordinate_noise self1 (1249 # 10000) 0 0
       = Py.Ok (123 # 1000, self1)%Q
    /\ V1.noise_calls self1 = [(123 # 1000, 0, 0)%Q].
Proof.
  eexists. split; [vm_compute; reflexivity|]. split; reflexivity.
Qed.

Lemma full_renderer_cache_ok : V1.cache_ok full_renderer.
Proof. repeat split; cbn; lia. Qed.

Lemma full_renderer_v2_cache_ok : V2.cache_ok full_renderer_v2.
Proof. repeat split; cbn; lia. Qed.

(** A miss at (5, 0, 0) with a cache of five entries at its bound of
    five. *)
Lemma full_cache_miss_evicts_oldest_batch_witness :
  exists evicted kept self',
    V1.noise_cache full_renderer = evicted ++ kept
    /\ Dict.len evicted = V1.cache_max_size full_renderer / 5
    /\ V1.get_noise_cached first_coordinate_noise full_renderer 5 0 0
       = Py.Ok (first_coordinate_noise 5 0 0, self')
    /\ V1.noise_cache self'
       = kept ++ [(V1.cache_key 5 0 0, first_coordinate_noise 5 0 0)].
Proof.
  exact (proj1 (full_cache_miss_evicts_oldest_batch first_coordinate_noise
                  5 0 0)
           full_renderer full_renderer_cache_ok eq_refl eq_refl).
Defined.

(** The same miss, computed: the entry of (0, 0, 0), the oldest, is gone
    and the new entry is last; in test4_optimized_v2.py, with four entries
    at a bound of four, the two oldest are gone. *)
Example full_cache_miss_computed :
  (exists v self',
     V1.get_noise_cached first_coordinate_noise full_renderer 5 0 0
     = Py.Ok (v, self')
     /\ Dict.keys (V1.noise_cache self')
        = Dict.keys (skipn 1 (V1.noise_cache full_renderer))
          ++ [V1.cache_key 5 0 0]
     /\ Dict.len (V1.noise_cache self') = 5)
  /\
  (exists v self',
     V2.get_noise_optimized first_coordinate_noise full_renderer_v2 5 0 0
     = Py.Ok (v, self')
     /\ Dict.keys (V2.noise_cache self')
        = Dict.keys (skipn 2 (V2.noise_cache full_renderer_v2))
          ++ [V2.cache_key 5 0 0]
     /\ Dict.len (V2.noise_cache self') = 3).
Proof.
  split; eexists; eexists; (split; [vm_compute; reflexivity|]);
    split; reflexivity.
Qed.

(* ================================================================== *)
(** * The builtins on examples                                         *)
(* ================================================================== *)

Example split_example :
  Py.split "M" "35;10;5M64M" = ["35;10;5"; "64"; ""]%string.
Proof. reflexivity. Qed.

Example int_examples :
  Py.int "10" = Py.Ok 10 /\ Py.int " -7 " = Py.Ok (-7)
  /\ Py.int "1_0" = Py.Ok 10 /\ Py.int "xy" = Py.Raise Py.ValueError
  /\ Py.int "" = Py.Raise Py.ValueError
  /\ Py.int "1__0" = Py.Raise Py.ValueError.
Proof. repeat split; reflexivity. Qed.

Example str_examples :
  Py.str 0 = "0"%string /\ Py.str 255 = "255"%string
  /\ Py.str (-63) = "-63"%string.
Proof. repeat split; reflexivity. Qed.

Example round_examples :
  (Py.round (1 # 8) 2 == 12 # 100)%Q /\ (Py.round (7 # 2) 0 == 4)%Q
  /\ (Py.round (- (267 # 100)) 1 == - (27 # 10))%Q.
Proof. repeat split; reflexivity. Qed.

Example remove_sub_example :
  Py.remove_sub (String Py.esc "[<")
    (String Py.esc "[<35;1;2M" ++ String Py.esc "[<64M")
  = "35;1;2M64M"%string.
Proof. reflexivity. Qed.

Example mxplusb_example :
  exists m c,
    mxplusb 0 (- (1 # 5)) 255 0 = Py.Ok (m, c)
    /\ (m == 1275)%Q /\ (c == 255)%Q.
Proof. eexists. eexists. split; [reflexivity|]. split; reflexivity. Qed.

Example is_byte_decimal_examples :
  is_byte_decimal "0" = true /\ is_byte_decimal "255" = true
  /\ is_byte_decimal "007" = false /\ is_byte_decimal "256" = false
  /\ is_byte_decimal "-63" = false /\ is_byte_decimal "" = false.
Proof. repeat split; reflexivity. Qed.
